(** * AS_BH1750: a shallow embedding of the BH1750FVI light-sensor driver

    The development follows [AS_BH1750.h] and [AS_BH1750.cpp]; line numbers
    are those of [AS_BH1750.cpp].

    - Fixed-width integers ([uint8_t], [uint16_t]) are integers of [Z] with
      the wrap-around written out ([u8], [u16]).
    - The driver object is the record [AS_BH1750]; its methods are actions
      of a state monad [M] over the driver object and the board it runs on.
    - The board ([Arduino]) is the outside world: the global [Wire] object
      and the [delay] facility.  Every call the driver makes is appended to
      a [trace]; every value the hardware hands back ([Wire.read()],
      [Wire.endTransmission()]) is taken, in order, from [answers], an
      arbitrary sequence.
    - The constructor leaves five fields unwritten; a fresh object holds
      arbitrary values there.
    - [float] arithmetic is modelled by exact rational arithmetic ([Q]):
      rounding is not modelled. *)

From Stdlib Require Import ZArith QArith List Bool Lia.
Import ListNotations.
Local Open Scope Z_scope.

(** ** Machine integers *)

Definition u8 (z : Z) : Z := z mod 256.
Definition u16 (z : Z) : Z := z mod 65536.

(** ** Constants of AS_BH1750.h *)

Definition BH1750_DEFAULT_I2CADDR : Z := 0x23.
Definition BH1750_SECOND_I2CADDR : Z := 0x5C.

Definition BH1750_MTREG_DEFAULT : Z := 69.
Definition BH1750_MTREG_MIN : Z := 31.
Definition BH1750_MTREG_MAX : Z := 254.

Definition BH1750_POWER_DOWN : Z := 0x00.
Definition BH1750_POWER_ON : Z := 0x01.
Definition BH1750_RESET : Z := 0x07.
Definition BH1750_CONTINUOUS_HIGH_RES_MODE : Z := 0x10.
Definition BH1750_CONTINUOUS_HIGH_RES_MODE_2 : Z := 0x11.
Definition BH1750_CONTINUOUS_LOW_RES_MODE : Z := 0x13.
Definition BH1750_ONE_TIME_HIGH_RES_MODE : Z := 0x20.
Definition BH1750_ONE_TIME_HIGH_RES_MODE_2 : Z := 0x21.
Definition BH1750_ONE_TIME_LOW_RES_MODE : Z := 0x23.

(** [sensors_resolution_t]: a C enumeration, that is an integer; [begin]
    has a [default:] case for values that are none of the four below. *)
Definition sensors_resolution_t : Type := Z.
Definition RESOLUTION_LOW : sensors_resolution_t := 1.
Definition RESOLUTION_NORMAL : sensors_resolution_t := 2.
Definition RESOLUTION_HIGH : sensors_resolution_t := 3.
Definition RESOLUTION_AUTO_HIGH : sensors_resolution_t := 99.

(** ** The board: the [Wire] object and [delay] *)

Inductive Call : Type :=
| Wire_begin_call
| beginTransmission_call (address : Z)
| write_call (d : Z)
| endTransmission_call (status : Z)
| requestFrom_call (address quantity : Z)
| read_call (value : Z)
| delay_call (ms : Z).

Record Arduino : Type := mkArduino {
  answers : nat -> Z;   (* what the hardware returns, call after call *)
  asked : nat;          (* how many answers have been consumed *)
  trace : list Call     (* the calls made so far, oldest first *)
}.

Definition record (c : Call) (b : Arduino) : Arduino :=
  mkArduino (answers b) (asked b) (trace b ++ [c]).

Definition next_answer (b : Arduino) : Z := answers b (asked b).

Definition consume (b : Arduino) : Arduino :=
  mkArduino (answers b) (S (asked b)) (trace b).

(** [DelayFuncPtr], a pointer to a [void f(unsigned long)]: a
    caller-supplied routine; it acts on the board and cannot reach the
    driver's private fields. *)
Definition DelayFuncPtr : Type := Z -> Arduino -> Arduino.

(** The platform's own [delay]. *)
Definition delay : DelayFuncPtr := fun ms b => record (delay_call ms) b.

(** ** The driver object *)

Record AS_BH1750 : Type := mkAS_BH1750 {
  _address : Z;
  _hardwareMode : Z;
  _MTreg : Z;
  _MTregFactor : Q;
  _virtualMode : sensors_resolution_t;
  _autoPowerDown : bool;
  _valueReaded : bool
}.

Record World : Type := mkWorld {
  this : AS_BH1750;
  board : Arduino
}.

(** ** The state monad of method bodies *)

Definition M (A : Type) : Type := World -> A * World.

Definition ret {A : Type} (a : A) : M A := fun w => (a, w).

Definition bind {A B : Type} (c : M A) (k : A -> M B) : M B :=
  fun w => let (a, w') := c w in k a w'.

Notation "x <- c ;; k" := (bind c (fun x => k))
  (at level 61, c at next level, right associativity).
Notation "c ;; k" := (bind c (fun _ => k))
  (at level 61, right associativity).

Definition get {A : Type} (field : AS_BH1750 -> A) : M A :=
  fun w => (field (this w), w).

Definition modify (f : AS_BH1750 -> AS_BH1750) : M unit :=
  fun w => (tt, mkWorld (f (this w)) (board w)).

Definition set_hardwareMode (v : Z) : M unit :=
  modify (fun h => mkAS_BH1750 (_address h) (u8 v) (_MTreg h) (_MTregFactor h)
                     (_virtualMode h) (_autoPowerDown h) (_valueReaded h)).

Definition set_MTreg (v : Z) : M unit :=
  modify (fun h => mkAS_BH1750 (_address h) (_hardwareMode h) (u8 v) (_MTregFactor h)
                     (_virtualMode h) (_autoPowerDown h) (_valueReaded h)).

Definition set_MTregFactor (v : Q) : M unit :=
  modify (fun h => mkAS_BH1750 (_address h) (_hardwareMode h) (_MTreg h) v
                     (_virtualMode h) (_autoPowerDown h) (_valueReaded h)).

Definition set_virtualMode (v : sensors_resolution_t) : M unit :=
  modify (fun h => mkAS_BH1750 (_address h) (_hardwareMode h) (_MTreg h) (_MTregFactor h)
                     v (_autoPowerDown h) (_valueReaded h)).

Definition set_autoPowerDown (v : bool) : M unit :=
  modify (fun h => mkAS_BH1750 (_address h) (_hardwareMode h) (_MTreg h) (_MTregFactor h)
                     (_virtualMode h) v (_valueReaded h)).

Definition set_valueReaded (v : bool) : M unit :=
  modify (fun h => mkAS_BH1750 (_address h) (_hardwareMode h) (_MTreg h) (_MTregFactor h)
                     (_virtualMode h) (_autoPowerDown h) v).

(** Calls into the platform. *)

Definition on_board (f : Arduino -> Arduino) : M unit :=
  fun w => (tt, mkWorld (this w) (f (board w))).

Definition call (fDelayPtr : DelayFuncPtr) (ms : Z) : M unit :=
  on_board (fDelayPtr ms).

Definition Wire_begin : M unit := on_board (record Wire_begin_call).

Definition Wire_beginTransmission (address : Z) : M unit :=
  on_board (record (beginTransmission_call address)).

Definition Wire_write (d : Z) : M unit := on_board (record (write_call d)).

Definition Wire_requestFrom (address quantity : Z) : M unit :=
  on_board (record (requestFrom_call address quantity)).

(** [uint8_t TwoWire::endTransmission()]: 0 is success. *)
Definition Wire_endTransmission : M Z :=
  fun w => let st := u8 (next_answer (board w)) in
           (st, mkWorld (this w) (record (endTransmission_call st) (consume (board w)))).

(** [int TwoWire::read()]: a byte, or -1 when nothing was received. *)
Definition Wire_read : M Z :=
  fun w => let v := next_answer (board w) in
           (v, mkWorld (this w) (record (read_call v) (consume (board w)))).

(** ** The methods of AS_BH1750.cpp *)

(** Lines 40-43. The constructor writes two fields; the others keep whatever
    the memory of the object held ([uninit]). *)
Definition new_AS_BH1750 (address : Z) (uninit : AS_BH1750) : AS_BH1750 :=
  mkAS_BH1750 (u8 address) 255 (_MTreg uninit) (_MTregFactor uninit)
    (_virtualMode uninit) (_autoPowerDown uninit) (_valueReaded uninit).

(** Lines 458-460. *)
Definition isInitialized : M bool :=
  hm <- get _hardwareMode ;;
  ret (negb (hm =? 255)).

(** Lines 465-473: one addressed one-byte write; true when the bus reports
    success. *)
Definition write8 (d : Z) : M bool :=
  a <- get _address ;;
  Wire_beginTransmission a ;;
  Wire_write (u8 d) ;;
  st <- Wire_endTransmission ;;
  ret (st =? 0).

(** Lines 420-453. [loByte] is computed as in the source, and like there it
    is [hiByte] that both calls of [write8] receive. *)
Definition defineMTReg (val : Z) : M unit :=
  let val := u8 val in
  let val := if val <? BH1750_MTREG_MIN then BH1750_MTREG_MIN else val in
  let val := if val >? BH1750_MTREG_MAX then BH1750_MTREG_MAX else val in
  reg <- get _MTreg ;;
  if negb (val =? reg) then
    set_MTreg val ;;
    reg <- get _MTreg ;;
    set_MTregFactor (inject_Z BH1750_MTREG_DEFAULT / inject_Z reg)%Q ;;
    let hiByte := u8 (Z.shiftr val 5) in
    let hiByte := u8 (Z.lor hiByte 0x40) in      (* 0b01000000 *)
    write8 hiByte ;;
    let loByte := u8 (Z.land val 0x1F) in        (* 0b00011111 *)
    let loByte := u8 (Z.lor loByte 0x60) in      (* 0b01100000 *)
    write8 hiByte ;;
    ret tt
  else ret tt.

(** The [case] labels of the [switch] of [selectResolutionMode], lines
    214-219. *)
Definition is_measurement_mode (mode : Z) : bool :=
  (mode =? BH1750_CONTINUOUS_HIGH_RES_MODE)
  || (mode =? BH1750_CONTINUOUS_HIGH_RES_MODE_2)
  || (mode =? BH1750_CONTINUOUS_LOW_RES_MODE)
  || (mode =? BH1750_ONE_TIME_HIGH_RES_MODE)
  || (mode =? BH1750_ONE_TIME_HIGH_RES_MODE_2)
  || (mode =? BH1750_ONE_TIME_LOW_RES_MODE).

(** Lines 197-237. The mode is stored before it is checked. *)
Definition selectResolutionMode (mode : Z) (fDelayPtr : DelayFuncPtr) : M bool :=
  let mode := u8 mode in
  init <- isInitialized ;;
  if negb init then ret false else
  set_hardwareMode mode ;;
  set_valueReaded false ;;
  if is_measurement_mode mode then
    ok <- write8 mode ;;
    if ok then call fDelayPtr 5 ;; ret true
    else ret false
  else ret false.

(** Lines 69-126. *)
Definition begin (mode : sensors_resolution_t) (autoPowerDown : bool) : M bool :=
  set_virtualMode mode ;;
  set_autoPowerDown autoPowerDown ;;
  Wire_begin ;;
  defineMTReg BH1750_MTREG_DEFAULT ;;
  vm <- get _virtualMode ;;
  set_hardwareMode
    (if vm =? RESOLUTION_LOW then
       if autoPowerDown then BH1750_ONE_TIME_LOW_RES_MODE
       else BH1750_CONTINUOUS_LOW_RES_MODE
     else if vm =? RESOLUTION_NORMAL then
       if autoPowerDown then BH1750_ONE_TIME_HIGH_RES_MODE
       else BH1750_CONTINUOUS_HIGH_RES_MODE
     else if vm =? RESOLUTION_HIGH then
       if autoPowerDown then BH1750_ONE_TIME_HIGH_RES_MODE_2
       else BH1750_CONTINUOUS_HIGH_RES_MODE_2
     else if vm =? RESOLUTION_AUTO_HIGH then BH1750_CONTINUOUS_LOW_RES_MODE
     else 255) ;;
  hm <- get _hardwareMode ;;
  if hm =? 255 then ret false else
  ok <- selectResolutionMode hm delay ;;
  if ok then ret true else
  set_hardwareMode 255 ;;
  ret false.

(** Lines 158-171. *)
Definition powerOn : M unit :=
  init <- isInitialized ;;
  if negb init then ret tt else
  set_valueReaded false ;;
  hm <- get _hardwareMode ;;
  selectResolutionMode hm delay ;;
  ret tt.

(** Lines 177-186. *)
Definition powerDown : M unit :=
  init <- isInitialized ;;
  if negb init then ret tt else
  write8 BH1750_POWER_DOWN ;;
  ret tt.

(** Lines 339-367. [level] is a [uint16_t]; [Wire.read()] returns an [int]. *)
Definition readRawLevel : M Z :=
  a <- get _address ;;
  Wire_beginTransmission a ;;
  Wire_requestFrom a 2 ;;
  r1 <- Wire_read ;;
  let level := u16 r1 in
  let level := u16 (Z.shiftl level 8) in
  r2 <- Wire_read ;;
  let level := u16 (Z.lor level r2) in
  st <- Wire_endTransmission ;;
  if negb (st =? 0) then ret 65535 else
  set_valueReaded true ;;
  ret level.

(** Lines 372-411. *)
Definition convertRawValue (raw : Z) : M Q :=
  let raw := u16 raw in
  let flevel := (inject_Z raw / (12 # 10))%Q in
  reg <- get _MTreg ;;
  factor <- get _MTregFactor ;;
  let flevel := if negb (reg =? BH1750_MTREG_DEFAULT)
                then (flevel * factor)%Q else flevel in
  hm <- get _hardwareMode ;;
  if (hm =? BH1750_CONTINUOUS_HIGH_RES_MODE_2) || (hm =? BH1750_ONE_TIME_HIGH_RES_MODE_2)
  then ret (flevel / 2)%Q
  else ret flevel.

(** Lines 245-333. [absent] is true on the path that leaves through the
    [return -1] of line 329; every other path ends in the conversion of
    line 332. *)
Definition readLightLevel (fDelayPtr : DelayFuncPtr) : M Q :=
  init <- isInitialized ;;
  if negb init then ret (-1)%Q else
  apd <- get _autoPowerDown ;;
  readed <- get _valueReaded ;;
  (if apd && readed then powerOn else ret tt) ;;
  vm <- get _virtualMode ;;
  (if vm =? RESOLUTION_AUTO_HIGH then
     defineMTReg BH1750_MTREG_DEFAULT ;;
     selectResolutionMode BH1750_CONTINUOUS_LOW_RES_MODE fDelayPtr ;;
     call fDelayPtr 16 ;;
     level <- readRawLevel ;;
     if level <? 10 then
       defineMTReg BH1750_MTREG_MAX ;;
       apd <- get _autoPowerDown ;;
       selectResolutionMode
         (if apd then BH1750_ONE_TIME_HIGH_RES_MODE_2
          else BH1750_CONTINUOUS_HIGH_RES_MODE_2) fDelayPtr ;;
       call fDelayPtr 441                       (* (unsigned long)(120*3.68) *)
     else if level <? 32767 then
       defineMTReg BH1750_MTREG_DEFAULT ;;
       apd <- get _autoPowerDown ;;
       selectResolutionMode
         (if apd then BH1750_ONE_TIME_HIGH_RES_MODE_2
          else BH1750_CONTINUOUS_HIGH_RES_MODE_2) fDelayPtr ;;
       call fDelayPtr 120
     else if level <? 60000 then
       defineMTReg BH1750_MTREG_DEFAULT ;;
       apd <- get _autoPowerDown ;;
       selectResolutionMode
         (if apd then BH1750_ONE_TIME_HIGH_RES_MODE
          else BH1750_CONTINUOUS_HIGH_RES_MODE) fDelayPtr ;;
       call fDelayPtr 120
     else
       defineMTReg 32 ;;
       apd <- get _autoPowerDown ;;
       selectResolutionMode
         (if apd then BH1750_ONE_TIME_HIGH_RES_MODE
          else BH1750_CONTINUOUS_HIGH_RES_MODE) fDelayPtr ;;
       call fDelayPtr 120
   else ret tt) ;;
  raw <- readRawLevel ;;
  absent <- (if raw =? 65535 then
               a <- get _address ;;
               Wire_beginTransmission a ;;
               st <- Wire_endTransmission ;;
               ret (negb (st =? 0))
             else ret false) ;;
  if absent then ret (-1)%Q else
  convertRawValue raw.

(** Lines 131-152. *)
Definition isPresent : M bool :=
  a <- get _address ;;
  Wire_beginTransmission a ;;
  st <- Wire_endTransmission ;;
  if negb (st =? 0) then ret false else
  init <- isInitialized ;;
  (if negb init then
     selectResolutionMode BH1750_ONE_TIME_LOW_RES_MODE delay ;;
     set_hardwareMode 255
   else powerOn) ;;
  lux <- readLightLevel delay ;;
  ret (Qle_bool 0 lux).

(** * Vocabulary of the statements *)

(** ** The stretches of [readLightLevel], [begin] and [isPresent]

    The claims about [readLightLevel] speak of the probe value and of the
    final raw read, that is of states in the middle of the method. The
    definitions below are the stretches of its body, in order; the lemma
    [readLightLevel_phases] shows that the method is their sequence. The
    same is done for [begin] ([begin_phases]) and for [isPresent]
    ([isPresent_phases]). *)

(** [readLightLevel], lines 258-261: wake a sensor that powered itself
    down. *)
Definition readLightLevel_wake : M unit :=
  apd <- get _autoPowerDown ;;
  readed <- get _valueReaded ;;
  if apd && readed then powerOn else ret tt.

(** [readLightLevel], lines 273-276: the probe in low resolution. *)
Definition autoHigh_probe (fDelayPtr : DelayFuncPtr) : M Z :=
  defineMTReg BH1750_MTREG_DEFAULT ;;
  selectResolutionMode BH1750_CONTINUOUS_LOW_RES_MODE fDelayPtr ;;
  call fDelayPtr 16 ;;
  readRawLevel.

(** [readLightLevel], lines 281-319: the reaction to the probe value
    [level]. *)
Definition autoHigh_adjust (fDelayPtr : DelayFuncPtr) (level : Z) : M unit :=
  if level <? 10 then
    defineMTReg BH1750_MTREG_MAX ;;
    apd <- get _autoPowerDown ;;
    selectResolutionMode
      (if apd then BH1750_ONE_TIME_HIGH_RES_MODE_2
       else BH1750_CONTINUOUS_HIGH_RES_MODE_2) fDelayPtr ;;
    call fDelayPtr 441
  else if level <? 32767 then
    defineMTReg BH1750_MTREG_DEFAULT ;;
    apd <- get _autoPowerDown ;;
    selectResolutionMode
      (if apd then BH1750_ONE_TIME_HIGH_RES_MODE_2
       else BH1750_CONTINUOUS_HIGH_RES_MODE_2) fDelayPtr ;;
    call fDelayPtr 120
  else if level <? 60000 then
    defineMTReg BH1750_MTREG_DEFAULT ;;
    apd <- get _autoPowerDown ;;
    selectResolutionMode
      (if apd then BH1750_ONE_TIME_HIGH_RES_MODE
       else BH1750_CONTINUOUS_HIGH_RES_MODE) fDelayPtr ;;
    call fDelayPtr 120
  else
    defineMTReg 32 ;;
    apd <- get _autoPowerDown ;;
    selectResolutionMode
      (if apd then BH1750_ONE_TIME_HIGH_RES_MODE
       else BH1750_CONTINUOUS_HIGH_RES_MODE) fDelayPtr ;;
    call fDelayPtr 120.

(** [readLightLevel], lines 258-320: all that comes before the final raw
    read. *)
Definition readLightLevel_prepare (fDelayPtr : DelayFuncPtr) : M unit :=
  readLightLevel_wake ;;
  vm <- get _virtualMode ;;
  if vm =? RESOLUTION_AUTO_HIGH then
    level <- autoHigh_probe fDelayPtr ;;
    autoHigh_adjust fDelayPtr level
  else ret tt.

(** [readLightLevel], lines 323-332: the final raw read, the presence probe
    and the conversion. *)
Definition readLightLevel_final : M Q :=
  raw <- readRawLevel ;;
  absent <- (if raw =? 65535 then
               a <- get _address ;;
               Wire_beginTransmission a ;;
               st <- Wire_endTransmission ;;
               ret (negb (st =? 0))
             else ret false) ;;
  if absent then ret (-1)%Q else
  convertRawValue raw.

(** [begin], lines 74-79: the arguments are stored, the bus is started and
    the register is set to its default. *)
Definition begin_setup (mode : sensors_resolution_t) (autoPowerDown : bool) : M unit :=
  set_virtualMode mode ;;
  set_autoPowerDown autoPowerDown ;;
  Wire_begin ;;
  defineMTReg BH1750_MTREG_DEFAULT.

(** [begin], lines 82-99: the hardware mode of a virtual mode. *)
Definition begin_hardwareMode (mode : sensors_resolution_t) (autoPowerDown : bool) : Z :=
  if mode =? RESOLUTION_LOW then
    if autoPowerDown then BH1750_ONE_TIME_LOW_RES_MODE
    else BH1750_CONTINUOUS_LOW_RES_MODE
  else if mode =? RESOLUTION_NORMAL then
    if autoPowerDown then BH1750_ONE_TIME_HIGH_RES_MODE
    else BH1750_CONTINUOUS_HIGH_RES_MODE
  else if mode =? RESOLUTION_HIGH then
    if autoPowerDown then BH1750_ONE_TIME_HIGH_RES_MODE_2
    else BH1750_CONTINUOUS_HIGH_RES_MODE_2
  else if mode =? RESOLUTION_AUTO_HIGH then BH1750_CONTINUOUS_LOW_RES_MODE
  else 255.

(** [isPresent], lines 133-134: the world after the address check. *)
Definition address_checked (w : World) : World :=
  mkWorld (this w)
    (mkArduino (answers (board w)) (S (asked (board w)))
       (trace (board w) ++
        [beginTransmission_call (_address (this w));
         endTransmission_call (u8 (next_answer (board w)))])).

(** ** Values and objects the methods produce *)

(** The value [defineMTReg] settles on for an argument (lines 421-426). *)
Definition clamped (val : Z) : Z :=
  let val := u8 val in
  let val := if val <? BH1750_MTREG_MIN then BH1750_MTREG_MIN else val in
  if val >? BH1750_MTREG_MAX then BH1750_MTREG_MAX else val.

(** The object after a call of [defineMTReg] that changes the register. *)
Definition recalibrated (c : Z) (h : AS_BH1750) : AS_BH1750 :=
  mkAS_BH1750 (_address h) (_hardwareMode h) c
    (inject_Z BH1750_MTREG_DEFAULT / inject_Z c)%Q
    (_virtualMode h) (_autoPowerDown h) (_valueReaded h).

(** The object after [selectResolutionMode] got past its guard. *)
Definition selected (mode : Z) (h : AS_BH1750) : AS_BH1750 :=
  mkAS_BH1750 (_address h) mode (_MTreg h) (_MTregFactor h)
    (_virtualMode h) (_autoPowerDown h) false.

(** The object after a successful [readRawLevel]. *)
Definition measured (h : AS_BH1750) : AS_BH1750 :=
  mkAS_BH1750 (_address h) (_hardwareMode h) (_MTreg h) (_MTregFactor h)
    (_virtualMode h) (_autoPowerDown h) true.

(** The register and the hardware mode [autoHigh_adjust] chooses for a
    probe value. *)
Definition adjusted_MTreg (level : Z) : Z :=
  if level <? 10 then BH1750_MTREG_MAX
  else if level <? 32767 then BH1750_MTREG_DEFAULT
  else if level <? 60000 then BH1750_MTREG_DEFAULT
  else 32.

Definition adjusted_mode (apd : bool) (level : Z) : Z :=
  if level <? 10 then
    if apd then BH1750_ONE_TIME_HIGH_RES_MODE_2 else BH1750_CONTINUOUS_HIGH_RES_MODE_2
  else if level <? 32767 then
    if apd then BH1750_ONE_TIME_HIGH_RES_MODE_2 else BH1750_CONTINUOUS_HIGH_RES_MODE_2
  else if level <? 60000 then
    if apd then BH1750_ONE_TIME_HIGH_RES_MODE else BH1750_CONTINUOUS_HIGH_RES_MODE
  else
    if apd then BH1750_ONE_TIME_HIGH_RES_MODE else BH1750_CONTINUOUS_HIGH_RES_MODE.

(** ** Predicates on objects *)

(** The scale factor is the one of the register, unless the register holds
    its default and the factor is not used. *)
Definition calibrated (h : AS_BH1750) : Prop :=
  _MTreg h = BH1750_MTREG_DEFAULT \/
  (BH1750_MTREG_MIN <= _MTreg h <= BH1750_MTREG_MAX /\
   _MTregFactor h = (inject_Z BH1750_MTREG_DEFAULT / inject_Z (_MTreg h))%Q).

Definition mode_1_variant (hm : Z) : Prop :=
  hm = BH1750_CONTINUOUS_HIGH_RES_MODE \/ hm = BH1750_ONE_TIME_HIGH_RES_MODE.

Definition mode_2_variant (hm : Z) : Prop :=
  hm = BH1750_CONTINUOUS_HIGH_RES_MODE_2 \/ hm = BH1750_ONE_TIME_HIGH_RES_MODE_2.

Definition valid_resolution (mode : sensors_resolution_t) : Prop :=
  mode = RESOLUTION_LOW \/ mode = RESOLUTION_NORMAL \/
  mode = RESOLUTION_HIGH \/ mode = RESOLUTION_AUTO_HIGH.

Definition legal_hardwareMode (hm : Z) : Prop :=
  hm = 255 \/
  hm = BH1750_CONTINUOUS_HIGH_RES_MODE \/
  hm = BH1750_CONTINUOUS_HIGH_RES_MODE_2 \/
  hm = BH1750_CONTINUOUS_LOW_RES_MODE \/
  hm = BH1750_ONE_TIME_HIGH_RES_MODE \/
  hm = BH1750_ONE_TIME_HIGH_RES_MODE_2 \/
  hm = BH1750_ONE_TIME_LOW_RES_MODE.

(** The fields no method but [begin] writes. *)
Definition same_wiring (h h' : AS_BH1750) : Prop :=
  _address h' = _address h /\
  _virtualMode h' = _virtualMode h /\
  _autoPowerDown h' = _autoPowerDown h.

(** What holds of the object between any two public operations: the
    hardware mode is 255 or a measurement command, and once the object is
    initialized its scale factor is in step with its register. *)
Definition consistent (h : AS_BH1750) : Prop :=
  legal_hardwareMode (_hardwareMode h) /\
  (_hardwareMode h <> 255 -> calibrated h).

(** ** The public operations, in sequence *)

Inductive Operation : Type :=
| call_begin (mode : sensors_resolution_t) (autoPowerDown : bool)
| call_isPresent
| call_readLightLevel (fDelayPtr : DelayFuncPtr)
| call_powerDown.

Definition perform (op : Operation) (w : World) : World :=
  match op with
  | call_begin mode autoPowerDown => snd (begin mode autoPowerDown w)
  | call_isPresent => snd (isPresent w)
  | call_readLightLevel fDelayPtr => snd (readLightLevel fDelayPtr w)
  | call_powerDown => snd (powerDown w)
  end.

Definition perform_all (ops : list Operation) (w : World) : World :=
  fold_left (fun w op => perform op w) ops w.

(** ** Settings of register and hardware mode *)

(** The pairs of register and hardware mode the auto-high mode leaves:
    the probe setting of [begin], and one pair for each band of
    [readLightLevel]. *)
Definition auto_high_setting (apd : bool) (reg hm : Z) : Prop :=
  (reg = 69 /\ hm = BH1750_CONTINUOUS_LOW_RES_MODE) \/
  (reg = 254 /\ hm = if apd then BH1750_ONE_TIME_HIGH_RES_MODE_2
                     else BH1750_CONTINUOUS_HIGH_RES_MODE_2) \/
  (reg = 69 /\ hm = if apd then BH1750_ONE_TIME_HIGH_RES_MODE_2
                    else BH1750_CONTINUOUS_HIGH_RES_MODE_2) \/
  (reg = 69 /\ hm = if apd then BH1750_ONE_TIME_HIGH_RES_MODE
                    else BH1750_CONTINUOUS_HIGH_RES_MODE) \/
  (reg = 32 /\ hm = if apd then BH1750_ONE_TIME_HIGH_RES_MODE
                    else BH1750_CONTINUOUS_HIGH_RES_MODE).

(** An object is settled when it is uninitialized, or in a fixed virtual
    mode with the hardware mode of the table of [begin] and the register at
    69, or in the auto-high mode with one of its five settings. *)
Definition settled (h : AS_BH1750) : Prop :=
  _hardwareMode h = 255 \/
  (_virtualMode h <> RESOLUTION_AUTO_HIGH /\
   _hardwareMode h = begin_hardwareMode (_virtualMode h) (_autoPowerDown h) /\
   _MTreg h = BH1750_MTREG_DEFAULT) \/
  (_virtualMode h = RESOLUTION_AUTO_HIGH /\
   auto_high_setting (_autoPowerDown h) (_MTreg h) (_hardwareMode h)).

(** ** The protocol on the bus *)

(** The calls the driver makes for an object at address [a]: transmissions
    and requests go to [a], a request asks for 2 bytes, and a byte written
    is the power-down command, a measurement command or the high byte of
    one of the registers 32, 69 and 254. *)
Definition driver_call (a : Z) (c : Call) : Prop :=
  match c with
  | beginTransmission_call address => address = a
  | requestFrom_call address quantity => address = a /\ quantity = 2
  | write_call d =>
      d = BH1750_POWER_DOWN \/ is_measurement_mode d = true \/
      d = 0x41 \/ d = 0x42 \/ d = 0x47
  | Wire_begin_call | endTransmission_call _ | read_call _ | delay_call _ => True
  end.

(** A delay routine that leaves on the trace only what the protocol
    allows; the platform's [delay] is one. *)
Definition polite (a : Z) (fDelayPtr : DelayFuncPtr) : Prop :=
  forall ms b, Forall (driver_call a) (trace b) ->
               Forall (driver_call a) (trace (fDelayPtr ms b)).

Definition polite_operation (a : Z) (op : Operation) : Prop :=
  match op with
  | call_readLightLevel fDelayPtr => polite a fDelayPtr
  | _ => True
  end.

(** The object and the trace follow the protocol for address [a]. *)
Definition on_protocol (a : Z) (w : World) : Prop :=
  _address (this w) = a /\ Forall (driver_call a) (trace (board w)).

(** ** Sample worlds, on which the model is run *)

(** A bus on which every transaction succeeds and every byte read is 0. *)
Definition quiet_board : Arduino := mkArduino (fun _ => 0) 0 [].

(** A board that hands back the values of [l] in order, then [d] forever. *)
Definition scripted_board (l : list Z) (d : Z) : Arduino :=
  mkArduino (fun n => nth n l d) 0 [].

(** Some content of the memory the constructor finds. *)
Definition blank : AS_BH1750 := mkAS_BH1750 0 0 0 0 0 false false.

(** A driver object straight out of its constructor. *)
Definition fresh : World :=
  mkWorld (new_AS_BH1750 BH1750_DEFAULT_I2CADDR blank) quiet_board.

(** The object [begin mode autoPowerDown] leaves on a quiet bus, put on the
    board [b]. *)
Definition started (mode : sensors_resolution_t) (autoPowerDown : bool)
    (b : Arduino) : World :=
  mkWorld (this (snd (begin mode autoPowerDown fresh))) b.

(** * Properties *)

(** ** Elementary facts about the actions *)

Ltac unfold_monad :=
  unfold bind, ret, get, modify, on_board, call, record, consume, next_answer in *.

Lemma u8_small (z : Z) : 0 <= z <= 255 -> u8 z = z.
Proof. intros H. unfold u8. apply Z.mod_small. lia. Qed.

Lemma u16_small (z : Z) : 0 <= z <= 65535 -> u16 z = z.
Proof. intros H. unfold u16. apply Z.mod_small. lia. Qed.

Lemma u8_range (z : Z) : 0 <= u8 z <= 255.
Proof. unfold u8. pose proof (Z.mod_pos_bound z 256). lia. Qed.

Lemma u16_range (z : Z) : 0 <= u16 z <= 65535.
Proof. unfold u16. pose proof (Z.mod_pos_bound z 65536). lia. Qed.

Lemma isInitialized_spec (w : World) :
  isInitialized w = (negb (_hardwareMode (this w) =? 255), w).
Proof. reflexivity. Qed.

(** [write8] leaves the object alone and adds one addressed one-byte write
    to the trace. *)
Lemma write8_spec (d : Z) (w : World) :
  let st := u8 (answers (board w) (asked (board w))) in
  write8 d w =
  (st =? 0,
   mkWorld (this w)
     (mkArduino (answers (board w)) (S (asked (board w)))
        (trace (board w) ++
         [beginTransmission_call (_address (this w)); write_call (u8 d);
          endTransmission_call st]))).
Proof.
  unfold write8, Wire_beginTransmission, Wire_write, Wire_endTransmission.
  unfold_monad. simpl. rewrite <- !app_assoc. reflexivity.
Qed.

Lemma clamped_range (val : Z) : 31 <= clamped val <= 254.
Proof.
  unfold clamped, BH1750_MTREG_MIN, BH1750_MTREG_MAX.
  pose proof (u8_range val).
  destruct (u8 val <? 31) eqn:E1; [reflexivity || (simpl; lia) |].
  apply Z.ltb_ge in E1.
  destruct (u8 val >? 254) eqn:E2; [lia |].
  rewrite Z.gtb_ltb in E2. apply Z.ltb_ge in E2. lia.
Qed.

Lemma clamped_u8 (val : Z) :
  0 <= val <= 255 -> clamped val = Z.max 31 (Z.min 254 val).
Proof.
  intros H. unfold clamped, BH1750_MTREG_MIN, BH1750_MTREG_MAX.
  rewrite (u8_small val H).
  destruct (val <? 31) eqn:E1.
  - apply Z.ltb_lt in E1. simpl. lia.
  - apply Z.ltb_ge in E1.
    destruct (val >? 254) eqn:E2; rewrite Z.gtb_ltb in E2.
    + apply Z.ltb_lt in E2. lia.
    + apply Z.ltb_ge in E2. lia.
Qed.

Lemma defineMTReg_same (val : Z) (w : World) :
  clamped val = _MTreg (this w) -> defineMTReg val w = (tt, w).
Proof.
  intros H. unfold defineMTReg. fold (clamped val). unfold_monad.
  rewrite H, Z.eqb_refl. reflexivity.
Qed.

Lemma defineMTReg_changed (val : Z) (w : World) :
  clamped val <> _MTreg (this w) ->
  let c := clamped val in
  let hiByte := u8 (Z.lor (u8 (Z.shiftr c 5)) 0x40) in
  let a := _address (this w) in
  let st1 := u8 (answers (board w) (asked (board w))) in
  let st2 := u8 (answers (board w) (S (asked (board w)))) in
  defineMTReg val w =
  (tt,
   mkWorld (recalibrated c (this w))
     (mkArduino (answers (board w)) (S (S (asked (board w))))
        (trace (board w) ++
         [beginTransmission_call a; write_call hiByte; endTransmission_call st1;
          beginTransmission_call a; write_call hiByte; endTransmission_call st2]))).
Proof.
  intros H c hiByte a st1 st2. unfold defineMTReg. fold (clamped val). fold c.
  unfold bind at 1. unfold get at 1.
  apply Z.eqb_neq in H. fold c in H. rewrite H. cbn [negb].
  unfold set_MTreg, set_MTregFactor.
  unfold bind, ret, get, modify. cbn [this board fst snd].
  rewrite !write8_spec. cbn [this board answers asked trace _address _MTreg].
  pose proof (clamped_range val) as R. fold c in R.
  rewrite (u8_small c) by lia.
  unfold recalibrated. cbn [_address _hardwareMode _MTreg _MTregFactor _virtualMode _autoPowerDown _valueReaded].
  fold hiByte. rewrite (u8_small hiByte) by apply u8_range.
  rewrite <- app_assoc. reflexivity.
Qed.

Lemma u8_idem (z : Z) : u8 (u8 z) = u8 z.
Proof. apply u8_small, u8_range. Qed.

Lemma selectResolutionMode_refused (mode : Z) (fDelayPtr : DelayFuncPtr) (w : World) :
  _hardwareMode (this w) = 255 ->
  selectResolutionMode mode fDelayPtr w = (false, w).
Proof.
  intros H. unfold selectResolutionMode, bind at 1.
  rewrite isInitialized_spec, H. reflexivity.
Qed.

Lemma selectResolutionMode_accepted (mode : Z) (fDelayPtr : DelayFuncPtr) (w : World) :
  _hardwareMode (this w) <> 255 ->
  is_measurement_mode (u8 mode) = true ->
  let w1 := mkWorld (selected (u8 mode) (this w)) (board w) in
  let ok := fst (write8 (u8 mode) w1) in
  let w2 := snd (write8 (u8 mode) w1) in
  selectResolutionMode mode fDelayPtr w =
  (ok, if ok then mkWorld (this w2) (fDelayPtr 5 (board w2)) else w2).
Proof.
  intros H V w1 ok w2. unfold selectResolutionMode, bind at 1.
  rewrite isInitialized_spec. apply Z.eqb_neq in H. rewrite H. cbn [negb].
  unfold set_hardwareMode, set_valueReaded.
  unfold bind at 1. unfold modify at 1.
  unfold bind at 1. unfold modify at 1.
  cbn [this board _address _hardwareMode _MTreg _MTregFactor _virtualMode
       _autoPowerDown _valueReaded].
  rewrite u8_idem, V. fold (selected (u8 mode) (this w)). fold w1.
  unfold bind at 1. subst ok w2.
  destruct (write8 (u8 mode) w1) as [ok w2]. cbn [fst snd].
  destruct ok; reflexivity.
Qed.

Lemma selectResolutionMode_invalid (mode : Z) (fDelayPtr : DelayFuncPtr) (w : World) :
  _hardwareMode (this w) <> 255 ->
  is_measurement_mode (u8 mode) = false ->
  selectResolutionMode mode fDelayPtr w =
  (false, mkWorld (selected (u8 mode) (this w)) (board w)).
Proof.
  intros H V. unfold selectResolutionMode, bind at 1.
  rewrite isInitialized_spec. apply Z.eqb_neq in H. rewrite H. cbn [negb].
  unfold set_hardwareMode, set_valueReaded.
  unfold bind at 1. unfold modify at 1.
  unfold bind at 1. unfold modify at 1.
  cbn [this board _address _hardwareMode _MTreg _MTregFactor _virtualMode
       _autoPowerDown _valueReaded].
  rewrite u8_idem, V. reflexivity.
Qed.

(** Whatever the bus does, [selectResolutionMode] past its guard stores the
    mode it was given. *)
Lemma selectResolutionMode_this (mode : Z) (fDelayPtr : DelayFuncPtr) (w : World) :
  this (snd (selectResolutionMode mode fDelayPtr w)) =
  if _hardwareMode (this w) =? 255 then this w else selected (u8 mode) (this w).
Proof.
  destruct (_hardwareMode (this w) =? 255) eqn:E.
  - apply Z.eqb_eq in E. now rewrite selectResolutionMode_refused.
  - apply Z.eqb_neq in E.
    destruct (is_measurement_mode (u8 mode)) eqn:V.
    + rewrite (selectResolutionMode_accepted _ _ _ E V).
      rewrite write8_spec. cbn [fst snd this].
      now destruct (_ =? 0).
    + now rewrite (selectResolutionMode_invalid _ _ _ E V).
Qed.

Lemma readRawLevel_spec (w : World) :
  let b := board w in
  let a := _address (this w) in
  let r1 := answers b (asked b) in
  let r2 := answers b (S (asked b)) in
  let st := u8 (answers b (S (S (asked b)))) in
  let b' := mkArduino (answers b) (S (S (S (asked b))))
              (trace b ++
               [beginTransmission_call a; requestFrom_call a 2;
                read_call r1; read_call r2; endTransmission_call st]) in
  readRawLevel w =
  if st =? 0
  then (u16 (Z.lor (u16 (Z.shiftl (u16 r1) 8)) r2), mkWorld (measured (this w)) b')
  else (65535, mkWorld (this w) b').
Proof.
  unfold readRawLevel, Wire_beginTransmission, Wire_requestFrom, Wire_read,
    Wire_endTransmission, set_valueReaded.
  unfold_monad. cbn [this board answers asked trace fst snd].
  rewrite <- !app_assoc. cbn [app].
  destruct (u8 _ =? 0); reflexivity.
Qed.

Lemma readRawLevel_range (w : World) : 0 <= fst (readRawLevel w) <= 65535.
Proof.
  rewrite readRawLevel_spec. cbv zeta.
  destruct (_ =? 0); cbn [fst]; [apply u16_range | lia].
Qed.

Lemma convertRawValue_spec (raw : Z) (w : World) :
  convertRawValue raw w =
  (let flevel := (inject_Z (u16 raw) / (12 # 10))%Q in
   let flevel := if negb (_MTreg (this w) =? BH1750_MTREG_DEFAULT)
                 then (flevel * _MTregFactor (this w))%Q else flevel in
   if (_hardwareMode (this w) =? BH1750_CONTINUOUS_HIGH_RES_MODE_2)
      || (_hardwareMode (this w) =? BH1750_ONE_TIME_HIGH_RES_MODE_2)
   then (flevel / 2)%Q else flevel,
   w).
Proof.
  unfold convertRawValue. unfold_monad. cbv zeta.
  destruct (_ || _); reflexivity.
Qed.

Lemma lor_below_pow2 (a b n : Z) :
  0 <= n -> 0 <= a < 2 ^ n -> 0 <= b < 2 ^ n -> 0 <= Z.lor a b < 2 ^ n.
Proof.
  intros Hn Ha Hb. split.
  - apply Z.lor_nonneg. lia.
  - destruct (Z.eq_dec a 0) as [-> | Na]; [now rewrite Z.lor_0_l |].
    destruct (Z.eq_dec b 0) as [-> | Nb]; [now rewrite Z.lor_0_r |].
    apply Z.log2_lt_pow2.
    + assert (0 <= Z.lor a b) by (apply Z.lor_nonneg; lia).
      assert (Z.lor a b <> 0) by (intros E; apply Z.lor_eq_0_iff in E; lia).
      lia.
    + rewrite Z.log2_lor by lia.
      apply Z.max_lub_lt; apply Z.log2_lt_pow2; lia.
Qed.

Lemma big_endian_u16 (first second : Z) :
  0 <= first <= 255 -> 0 <= second <= 255 ->
  u16 (Z.lor (u16 (Z.shiftl (u16 first) 8)) second) = Z.lor (Z.shiftl first 8) second.
Proof.
  intros H1 H2.
  rewrite (u16_small first) by lia.
  assert (S : Z.shiftl first 8 = first * 256) by (rewrite Z.shiftl_mul_pow2; lia).
  rewrite (u16_small (Z.shiftl first 8)) by (rewrite S; lia).
  apply u16_small.
  pose proof (lor_below_pow2 (Z.shiftl first 8) second 16) as B.
  change (2 ^ 16) with 65536 in B. rewrite S in *. lia.
Qed.

Lemma mode_2_variant_test (hm : Z) :
  (hm =? BH1750_CONTINUOUS_HIGH_RES_MODE_2) || (hm =? BH1750_ONE_TIME_HIGH_RES_MODE_2) = true
  <-> mode_2_variant hm.
Proof.
  unfold mode_2_variant. rewrite orb_true_iff, !Z.eqb_eq. reflexivity.
Qed.

Lemma not_mode_2_variant_test (hm : Z) :
  ~ mode_2_variant hm ->
  (hm =? BH1750_CONTINUOUS_HIGH_RES_MODE_2) || (hm =? BH1750_ONE_TIME_HIGH_RES_MODE_2) = false.
Proof.
  intros H. apply not_true_is_false. now rewrite mode_2_variant_test.
Qed.

(** What [defineMTReg] sends on every call that changes the register: the
    high byte, twice. The low byte [0x60 | (c & 0x1F)], which the method
    computes, lies in [0x60, 0x7F] and is never the byte sent. *)
Lemma defineMTReg_sends_high_byte_twice (val : Z) (w : World) :
  clamped val <> _MTreg (this w) ->
  let c := clamped val in
  let hiByte := Z.lor (Z.shiftr c 5) 0x40 in
  let loByte := Z.lor (Z.land c 0x1F) 0x60 in
  exists st1 st2,
    trace (board (snd (defineMTReg val w))) =
    trace (board w) ++
    [beginTransmission_call (_address (this w)); write_call hiByte;
     endTransmission_call st1;
     beginTransmission_call (_address (this w)); write_call hiByte;
     endTransmission_call st2]
    /\ hiByte <> loByte.
Proof.
  intros H c hiByte loByte.
  pose proof (clamped_range val) as R. fold c in R.
  assert (S5 : 0 <= Z.shiftr c 5 < 2 ^ 7).
  { rewrite Z.shiftr_div_pow2 by lia. change (2 ^ 5) with 32. change (2 ^ 7) with 128.
    split; [apply Z.div_pos; lia | apply Z.div_lt_upper_bound; lia]. }
  assert (Hhi : 0 <= hiByte < 2 ^ 7).
  { apply lor_below_pow2; [lia | exact S5 | change (2 ^ 7) with 128; lia]. }
  assert (Hlo : 2 ^ 6 <= loByte).
  { assert (T : Z.testbit loByte 6 = true).
    { unfold loByte. rewrite Z.lor_spec. change (Z.testbit 0x60 6) with true.
      apply orb_true_r. }
    assert (0 <= loByte).
    { apply Z.lor_nonneg. split; [apply Z.land_nonneg|]; lia. }
    destruct (Z.lt_ge_cases loByte (2 ^ 6)) as [L | L]; [| exact L].
    rewrite Z.bits_above_log2 in T; [discriminate | lia |].
    destruct (Z.eq_dec loByte 0) as [-> | N]; [cbn; lia |].
    apply Z.log2_lt_pow2; lia. }
  exists (u8 (answers (board w) (asked (board w)))),
         (u8 (answers (board w) (S (asked (board w))))).
  split.
  - rewrite (defineMTReg_changed _ _ H). cbn [snd board trace]. fold c.
    change (2 ^ 7) with 128 in *.
    rewrite (u8_small (Z.shiftr c 5)) by lia.
    fold hiByte. rewrite (u8_small hiByte) by lia. reflexivity.
  - assert (B : Z.testbit hiByte 5 = false).
    { unfold hiByte. rewrite Z.lor_spec. change (Z.testbit 0x40 5) with false.
      rewrite orb_false_r, Z.shiftr_spec by lia.
      apply Z.bits_above_log2; [lia |].
      destruct (Z.eq_dec c 0) as [-> | N]; [cbn; lia |].
      apply Z.log2_lt_pow2; [lia | cbn; lia]. }
    assert (B' : Z.testbit loByte 5 = true).
    { unfold loByte. rewrite Z.lor_spec. change (Z.testbit 0x60 5) with true.
      apply orb_true_r. }
    intros E. rewrite E in B. congruence.
Qed.

Lemma bind_assoc {A B C : Type} (c : M A) (k : A -> M B) (k' : B -> M C) (w : World) :
  bind (bind c k) k' w = bind c (fun a => bind (k a) k') w.
Proof. unfold bind. destruct (c w). reflexivity. Qed.

Lemma bind_run {A B : Type} (c : M A) (k : A -> M B) (w : World) :
  bind c k w = k (fst (c w)) (snd (c w)).
Proof. unfold bind. destruct (c w). reflexivity. Qed.

(** Two sequences of the same actions, bracketed differently, run in step. *)
Ltac lockstep :=
  repeat (
    rewrite ?bind_assoc; (symmetry; rewrite ?bind_assoc; symmetry);
    cbv beta;
    lazymatch goal with
    | |- ?x = ?x => reflexivity
    | |- bind (if ?b then _ else _) _ _ = _ => destruct b
    | |- (if ?b then _ else _) _ = _ => destruct b
    | |- bind ?c ?k ?w = bind ?c ?k' ?w =>
        change (bind c k w) with (let (a, w') := c w in k a w');
        change (bind c k' w) with (let (a, w') := c w in k' a w');
        destruct (c w)
    end).

Lemma readLightLevel_phases (fDelayPtr : DelayFuncPtr) (w : World) :
  readLightLevel fDelayPtr w =
  (init <- isInitialized ;;
   if negb init then ret (-1)%Q else
   readLightLevel_prepare fDelayPtr ;;
   readLightLevel_final) w.
Proof.
  unfold readLightLevel, readLightLevel_prepare, readLightLevel_wake,
    autoHigh_probe, autoHigh_adjust, readLightLevel_final.
  lockstep.
Qed.

Lemma readLightLevel_initialized (fDelayPtr : DelayFuncPtr) (w : World) :
  _hardwareMode (this w) <> 255 ->
  readLightLevel fDelayPtr w =
  readLightLevel_final (snd (readLightLevel_prepare fDelayPtr w)).
Proof.
  intros H. rewrite readLightLevel_phases, bind_run, isInitialized_spec.
  cbn [fst snd]. apply Z.eqb_neq in H. rewrite H. cbn [negb].
  now rewrite bind_run.
Qed.

(** ** What each action does to the object *)

Lemma call_this (fDelayPtr : DelayFuncPtr) (ms : Z) (w : World) :
  this (snd (call fDelayPtr ms w)) = this w.
Proof. reflexivity. Qed.

Lemma write8_this (d : Z) (w : World) : this (snd (write8 d w)) = this w.
Proof. now rewrite write8_spec. Qed.

Lemma defineMTReg_this (val : Z) (w : World) :
  this (snd (defineMTReg val w)) =
  if clamped val =? _MTreg (this w) then this w
  else recalibrated (clamped val) (this w).
Proof.
  destruct (clamped val =? _MTreg (this w)) eqn:E.
  - apply Z.eqb_eq in E. now rewrite defineMTReg_same.
  - apply Z.eqb_neq in E. now rewrite defineMTReg_changed.
Qed.

Lemma readRawLevel_this (w : World) :
  this (snd (readRawLevel w)) = this w \/
  this (snd (readRawLevel w)) = measured (this w).
Proof.
  rewrite readRawLevel_spec. cbv zeta. destruct (_ =? 0); [right | left]; reflexivity.
Qed.

Lemma powerOn_this (w : World) :
  this (snd (powerOn w)) =
  if _hardwareMode (this w) =? 255 then this w
  else selected (u8 (_hardwareMode (this w))) (this w).
Proof.
  unfold powerOn. rewrite bind_run, isInitialized_spec. cbn [fst snd].
  destruct (_hardwareMode (this w) =? 255) eqn:E; cbn [negb]; [reflexivity |].
  unfold set_valueReaded. rewrite !bind_run. cbn [ret snd].
  rewrite selectResolutionMode_this.
  unfold modify, get. cbn [fst snd this _hardwareMode]. rewrite E. reflexivity.
Qed.

(** ** Invariants of the object *)

Lemma same_wiring_refl (h : AS_BH1750) : same_wiring h h.
Proof. now repeat split. Qed.

Lemma same_wiring_trans (h1 h2 h3 : AS_BH1750) :
  same_wiring h1 h2 -> same_wiring h2 h3 -> same_wiring h1 h3.
Proof. unfold same_wiring. intuition congruence. Qed.

Lemma recalibrated_calibrated (c : Z) (h : AS_BH1750) :
  BH1750_MTREG_MIN <= c <= BH1750_MTREG_MAX -> calibrated (recalibrated c h).
Proof. intros H. right. split; [exact H | reflexivity]. Qed.

(** [defineMTReg] through the eyes of the invariants. *)
Lemma defineMTReg_effect (val : Z) (w : World) :
  let h := this w in
  let h' := this (snd (defineMTReg val w)) in
  _MTreg h' = clamped val /\
  _hardwareMode h' = _hardwareMode h /\
  _valueReaded h' = _valueReaded h /\
  same_wiring h h' /\
  (calibrated h -> calibrated h').
Proof.
  cbv zeta. rewrite defineMTReg_this.
  destruct (clamped val =? _MTreg (this w)) eqn:E.
  - apply Z.eqb_eq in E. repeat split; auto.
  - repeat split; intros; apply recalibrated_calibrated, clamped_range.
Qed.

Lemma defineMTReg_default_calibrated (w : World) :
  calibrated (this (snd (defineMTReg BH1750_MTREG_DEFAULT w))).
Proof.
  left. now destruct (defineMTReg_effect BH1750_MTREG_DEFAULT w) as [-> _].
Qed.

(** [selectResolutionMode] on an initialized object. *)
Lemma selectResolutionMode_effect (mode : Z) (fDelayPtr : DelayFuncPtr) (w : World) :
  _hardwareMode (this w) <> 255 ->
  let h := this w in
  let h' := this (snd (selectResolutionMode mode fDelayPtr w)) in
  _hardwareMode h' = u8 mode /\
  _MTreg h' = _MTreg h /\
  same_wiring h h' /\
  (calibrated h -> calibrated h').
Proof.
  intros H. cbv zeta. rewrite selectResolutionMode_this.
  apply Z.eqb_neq in H. rewrite H. repeat split. intros C; exact C.
Qed.

Lemma readRawLevel_effect (w : World) :
  let h := this w in
  let h' := this (snd (readRawLevel w)) in
  _hardwareMode h' = _hardwareMode h /\
  _MTreg h' = _MTreg h /\
  _MTregFactor h' = _MTregFactor h /\
  same_wiring h h' /\
  (calibrated h -> calibrated h').
Proof.
  cbv zeta. destruct (readRawLevel_this w) as [-> | ->]; repeat split; intros C; exact C.
Qed.

Lemma powerOn_effect (w : World) :
  let h := this w in
  let h' := this (snd (powerOn w)) in
  _hardwareMode h' = u8 (_hardwareMode h) /\
  _MTreg h' = _MTreg h /\
  same_wiring h h' /\
  (calibrated h -> calibrated h').
Proof.
  cbv zeta. rewrite powerOn_this.
  destruct (_hardwareMode (this w) =? 255) eqn:E.
  - apply Z.eqb_eq in E. rewrite E. repeat split; auto.
  - repeat split. intros C; exact C.
Qed.

Lemma readLightLevel_wake_effect (w : World) :
  0 <= _hardwareMode (this w) <= 255 ->
  let h := this w in
  let h' := this (snd (readLightLevel_wake w)) in
  _hardwareMode h' = _hardwareMode h /\
  _MTreg h' = _MTreg h /\
  same_wiring h h' /\
  (calibrated h -> calibrated h').
Proof.
  intros U. cbv zeta. unfold readLightLevel_wake. rewrite !bind_run. cbn [get fst snd].
  destruct (_autoPowerDown (this w) && _valueReaded (this w)).
  - destruct (powerOn_effect w) as (E & ? & ? & ?).
    rewrite (u8_small _ U) in E.
    split; [exact E | split; [assumption | split; assumption]].
  - cbn [ret snd].
    split; [reflexivity | split; [reflexivity | split; [apply same_wiring_refl | auto]]].
Qed.

(** After the probe the register holds its default and the hardware mode is
    the continuous low-resolution one. *)
Lemma autoHigh_probe_effect (fDelayPtr : DelayFuncPtr) (w : World) :
  _hardwareMode (this w) <> 255 ->
  let h := this w in
  let h' := this (snd (autoHigh_probe fDelayPtr w)) in
  _hardwareMode h' = BH1750_CONTINUOUS_LOW_RES_MODE /\
  _MTreg h' = BH1750_MTREG_DEFAULT /\
  same_wiring h h' /\
  calibrated h'.
Proof.
  intros H. cbv zeta. unfold autoHigh_probe. rewrite !bind_run.
  set (w1 := snd (defineMTReg BH1750_MTREG_DEFAULT w)).
  set (w2 := snd (selectResolutionMode BH1750_CONTINUOUS_LOW_RES_MODE fDelayPtr w1)).
  set (w3 := snd (call fDelayPtr 16 w2)).
  destruct (defineMTReg_effect BH1750_MTREG_DEFAULT w) as (R1 & M1 & _ & W1 & _).
  pose proof (defineMTReg_default_calibrated w) as C1. fold w1 in R1, M1, W1, C1.
  assert (I1 : _hardwareMode (this w1) <> 255) by congruence.
  destruct (selectResolutionMode_effect BH1750_CONTINUOUS_LOW_RES_MODE fDelayPtr w1 I1)
    as (M2 & R2 & W2 & C2).
  fold w2 in M2, R2, W2, C2.
  destruct (readRawLevel_effect w3) as (M3 & R3 & _ & W3 & C3).
  subst w3. rewrite call_this in *.
  repeat split.
  - rewrite M3, M2. reflexivity.
  - rewrite R3, R2, R1. reflexivity.
  - destruct W1 as (? & ? & ?), W2 as (? & ? & ?), W3 as (? & ? & ?). congruence.
  - destruct W1 as (? & ? & ?), W2 as (? & ? & ?), W3 as (? & ? & ?). congruence.
  - destruct W1 as (? & ? & ?), W2 as (? & ? & ?), W3 as (? & ? & ?). congruence.
  - auto.
Qed.

Lemma autoHigh_adjust_run (fDelayPtr : DelayFuncPtr) (level : Z) (w : World) :
  let mode := adjusted_mode (_autoPowerDown (this w)) level in
  let w1 := snd (defineMTReg (adjusted_MTreg level) w) in
  let w2 := snd (selectResolutionMode mode fDelayPtr w1) in
  this (snd (autoHigh_adjust fDelayPtr level w)) = this w2.
Proof.
  cbv zeta. unfold autoHigh_adjust, adjusted_mode, adjusted_MTreg.
  destruct (level <? 10); [| destruct (level <? 32767); [| destruct (level <? 60000)]];
    rewrite !bind_run; cbn [get fst snd]; rewrite call_this;
    match goal with
    | |- context [defineMTReg ?v w] =>
        destruct (defineMTReg_effect v w) as (_ & _ & _ & (_ & _ & A) & _)
    end;
    rewrite A; reflexivity.
Qed.

Lemma adjusted_mode_u8 (apd : bool) (level : Z) :
  u8 (adjusted_mode apd level) = adjusted_mode apd level.
Proof.
  unfold adjusted_mode.
  destruct apd, (level <? 10), (level <? 32767), (level <? 60000); reflexivity.
Qed.

Lemma adjusted_MTreg_clamped (level : Z) :
  clamped (adjusted_MTreg level) = adjusted_MTreg level.
Proof.
  unfold adjusted_MTreg.
  destruct (level <? 10), (level <? 32767), (level <? 60000); reflexivity.
Qed.

Lemma autoHigh_adjust_effect (fDelayPtr : DelayFuncPtr) (level : Z) (w : World) :
  _hardwareMode (this w) <> 255 ->
  let h := this w in
  let h' := this (snd (autoHigh_adjust fDelayPtr level w)) in
  _hardwareMode h' = adjusted_mode (_autoPowerDown h) level /\
  _MTreg h' = adjusted_MTreg level /\
  same_wiring h h' /\
  (calibrated h -> calibrated h').
Proof.
  intros H. cbv zeta. rewrite autoHigh_adjust_run. cbv zeta.
  set (w1 := snd (defineMTReg (adjusted_MTreg level) w)).
  destruct (defineMTReg_effect (adjusted_MTreg level) w) as (R1 & M1 & _ & W1 & C1).
  fold w1 in R1, M1, W1, C1.
  assert (I1 : _hardwareMode (this w1) <> 255) by congruence.
  destruct (selectResolutionMode_effect
              (adjusted_mode (_autoPowerDown (this w)) level) fDelayPtr w1 I1)
    as (M2 & R2 & W2 & C2).
  repeat split.
  - rewrite M2. apply adjusted_mode_u8.
  - rewrite R2, R1. apply adjusted_MTreg_clamped.
  - destruct W1 as (? & ? & ?), W2 as (? & ? & ?). congruence.
  - destruct W1 as (? & ? & ?), W2 as (? & ? & ?). congruence.
  - destruct W1 as (? & ? & ?), W2 as (? & ? & ?). congruence.
  - auto.
Qed.

Lemma readLightLevel_final_effect (w : World) :
  let h := this w in
  let h' := this (snd (readLightLevel_final w)) in
  _hardwareMode h' = _hardwareMode h /\
  _MTreg h' = _MTreg h /\
  same_wiring h h' /\
  (calibrated h -> calibrated h').
Proof.
  cbv zeta. unfold readLightLevel_final. rewrite !bind_run.
  set (w1 := snd (readRawLevel w)).
  assert (E : this (snd (readLightLevel_final w)) = this w1).
  { unfold readLightLevel_final. rewrite !bind_run. fold w1.
    destruct (fst (readRawLevel w) =? 65535).
    - rewrite !bind_run. cbn [get fst snd].
      unfold Wire_beginTransmission, Wire_endTransmission, on_board, ret.
      cbn [fst snd this].
      destruct (negb _); [reflexivity | now rewrite convertRawValue_spec].
    - cbn [ret fst snd]. now rewrite convertRawValue_spec. }
  unfold readLightLevel_final in E. rewrite !bind_run in E. fold w1 in E. rewrite E.
  destruct (readRawLevel_effect w) as (M & R & _ & W & C). fold w1 in M, R, W, C.
  auto.
Qed.

Lemma readLightLevel_prepare_run (fDelayPtr : DelayFuncPtr) (w : World) :
  let w0 := snd (readLightLevel_wake w) in
  snd (readLightLevel_prepare fDelayPtr w) =
  if _virtualMode (this w0) =? RESOLUTION_AUTO_HIGH
  then snd (autoHigh_adjust fDelayPtr (fst (autoHigh_probe fDelayPtr w0))
              (snd (autoHigh_probe fDelayPtr w0)))
  else w0.
Proof.
  cbv zeta. unfold readLightLevel_prepare. rewrite !bind_run. cbn [get fst snd].
  destruct (_ =? RESOLUTION_AUTO_HIGH); [now rewrite bind_run | reflexivity].
Qed.

(** [readLightLevel] keeps an initialized object initialized, its hardware
    mode legal and its scale factor in step with its register. *)
Lemma readLightLevel_prepare_effect (fDelayPtr : DelayFuncPtr) (w : World) :
  _hardwareMode (this w) <> 255 ->
  0 <= _hardwareMode (this w) <= 255 ->
  let h := this w in
  let h' := this (snd (readLightLevel_prepare fDelayPtr w)) in
  _hardwareMode h' <> 255 /\
  0 <= _hardwareMode h' <= 255 /\
  (legal_hardwareMode (_hardwareMode h) -> legal_hardwareMode (_hardwareMode h')) /\
  same_wiring h h' /\
  (calibrated h -> calibrated h').
Proof.
  intros I U. cbv zeta. rewrite readLightLevel_prepare_run. cbv zeta.
  destruct (readLightLevel_wake_effect w U) as (M0 & R0 & W0 & C0).
  set (w0 := snd (readLightLevel_wake w)) in *.
  destruct (_virtualMode (this w0) =? RESOLUTION_AUTO_HIGH).
  - assert (I0 : _hardwareMode (this w0) <> 255) by congruence.
    destruct (autoHigh_probe_effect fDelayPtr w0 I0) as (M1 & R1 & W1 & C1).
    set (w1 := snd (autoHigh_probe fDelayPtr w0)) in *.
    assert (I1 : _hardwareMode (this w1) <> 255) by (rewrite M1; discriminate).
    destruct (autoHigh_adjust_effect fDelayPtr (fst (autoHigh_probe fDelayPtr w0)) w1 I1)
      as (M2 & R2 & W2 & C2).
    rewrite M2.
    assert (L : forall apd level,
               let m := adjusted_mode apd level in
               m <> 255 /\ 0 <= m <= 255 /\ legal_hardwareMode m).
    { intros apd level. unfold adjusted_mode, legal_hardwareMode.
      destruct apd, (level <? 10), (level <? 32767), (level <? 60000); cbv zeta;
        (split; [discriminate | split; [cbv; split; discriminate | tauto]]). }
    destruct (L (_autoPowerDown (this w1)) (fst (autoHigh_probe fDelayPtr w0)))
      as (L1 & L2 & L3).
    split; [exact L1 | split; [exact L2 | split; [intros _; exact L3 | split]]].
    + eauto using same_wiring_trans.
    + auto.
  - rewrite M0. auto.
Qed.

Lemma isInitialized_true (w : World) :
  fst (isInitialized w) = true <-> _hardwareMode (this w) <> 255.
Proof.
  rewrite isInitialized_spec. cbn [fst].
  rewrite negb_true_iff. apply Z.eqb_neq.
Qed.

(** The conversion reads the object only. *)
Lemma convertRawValue_this (raw : Z) (w w' : World) :
  this w = this w' -> fst (convertRawValue raw w) = fst (convertRawValue raw w').
Proof. intros E. rewrite !convertRawValue_spec. cbn [fst]. now rewrite E. Qed.

(** The final stretch of [readLightLevel], run from the world [w]. *)
Lemma readLightLevel_final_spec (w : World) :
  let raw := fst (readRawLevel w) in
  let w2 := snd (readRawLevel w) in
  let st := u8 (next_answer (board w2)) in
  let w3 := mkWorld (this w2)
              (mkArduino (answers (board w2)) (S (asked (board w2)))
                 (trace (board w2) ++
                  [beginTransmission_call (_address (this w2));
                   endTransmission_call st])) in
  readLightLevel_final w =
  if raw =? 65535 then
    if negb (st =? 0) then ((-1)%Q, w3)
    else (fst (convertRawValue raw w2), w3)
  else (fst (convertRawValue raw w2), w2).
Proof.
  cbv zeta. unfold readLightLevel_final. rewrite bind_run.
  set (raw := fst (readRawLevel w)). set (w2 := snd (readRawLevel w)).
  destruct (raw =? 65535).
  - rewrite !bind_run. cbn [get fst snd].
    unfold Wire_beginTransmission, Wire_endTransmission, on_board, ret, record,
      consume, next_answer.
    cbn [fst snd this board answers asked trace].
    rewrite <- app_assoc. cbn [app].
    destruct (negb _); [reflexivity |].
    rewrite convertRawValue_spec, (convertRawValue_spec raw w2). reflexivity.
  - rewrite bind_run. cbn [ret fst snd].
    now rewrite convertRawValue_spec.
Qed.

(** On a calibrated object a positive raw count converts to a positive
    illuminance: never to the failure value -1. *)
Lemma convertRawValue_positive (raw : Z) (w : World) :
  0 < raw <= 65535 -> calibrated (this w) ->
  (0 < fst (convertRawValue raw w))%Q.
Proof.
  intros R C. rewrite convertRawValue_spec. cbn [fst]. cbv zeta.
  rewrite (u16_small raw) by lia.
  assert (P0 : (0 < inject_Z raw / (12 # 10))%Q).
  { unfold Qdiv. apply Qmult_lt_0_compat.
    - change 0%Q with (inject_Z 0). rewrite <- Zlt_Qlt. lia.
    - reflexivity. }
  assert (P1 : (0 < (if negb (_MTreg (this w) =? BH1750_MTREG_DEFAULT)
                     then inject_Z raw / (12 # 10) * _MTregFactor (this w)
                     else inject_Z raw / (12 # 10)))%Q).
  { destruct (_MTreg (this w) =? BH1750_MTREG_DEFAULT) eqn:E; cbn [negb]; [exact P0 |].
    apply Z.eqb_neq in E. destruct C as [C | [B C]]; [contradiction |].
    rewrite C. apply Qmult_lt_0_compat; [exact P0 |].
    unfold Qdiv. apply Qmult_lt_0_compat; [reflexivity |].
    apply Qinv_lt_0_compat.
    change 0%Q with (inject_Z 0). rewrite <- Zlt_Qlt.
    unfold BH1750_MTREG_MIN in B. lia. }
  destruct (_ || _); [| exact P1].
  unfold Qdiv. apply Qmult_lt_0_compat; [exact P1 | reflexivity].
Qed.

(** ** [begin] *)

Lemma valid_resolution_dec (mode : sensors_resolution_t) :
  valid_resolution mode \/ ~ valid_resolution mode.
Proof.
  unfold valid_resolution, RESOLUTION_LOW, RESOLUTION_NORMAL, RESOLUTION_HIGH,
    RESOLUTION_AUTO_HIGH.
  lia.
Qed.

Lemma begin_hardwareMode_valid (mode : sensors_resolution_t) (autoPowerDown : bool) :
  valid_resolution mode ->
  let hm := begin_hardwareMode mode autoPowerDown in
  hm <> 255 /\ u8 hm = hm /\ is_measurement_mode hm = true /\ legal_hardwareMode hm.
Proof.
  unfold legal_hardwareMode.
  intros [-> | [-> | [-> | ->]]]; destruct autoPowerDown; cbv zeta;
    (split; [discriminate | split; [reflexivity | split; [reflexivity | cbv; tauto]]]).
Qed.

Lemma begin_hardwareMode_invalid (mode : sensors_resolution_t) (autoPowerDown : bool) :
  ~ valid_resolution mode -> begin_hardwareMode mode autoPowerDown = 255.
Proof.
  unfold valid_resolution, begin_hardwareMode. intros H.
  destruct (mode =? RESOLUTION_LOW) eqn:E1; [apply Z.eqb_eq in E1; tauto |].
  destruct (mode =? RESOLUTION_NORMAL) eqn:E2; [apply Z.eqb_eq in E2; tauto |].
  destruct (mode =? RESOLUTION_HIGH) eqn:E3; [apply Z.eqb_eq in E3; tauto |].
  destruct (mode =? RESOLUTION_AUTO_HIGH) eqn:E4; [apply Z.eqb_eq in E4; tauto |].
  reflexivity.
Qed.

Lemma begin_setup_effect (mode : sensors_resolution_t) (autoPowerDown : bool) (w : World) :
  let h' := this (snd (begin_setup mode autoPowerDown w)) in
  _virtualMode h' = mode /\
  _autoPowerDown h' = autoPowerDown /\
  _address h' = _address (this w) /\
  _hardwareMode h' = _hardwareMode (this w) /\
  _MTreg h' = BH1750_MTREG_DEFAULT /\
  calibrated h'.
Proof.
  cbv zeta. unfold begin_setup. rewrite !bind_run.
  set (w1 := snd (Wire_begin _)).
  destruct (defineMTReg_effect BH1750_MTREG_DEFAULT w1) as (R & M & _ & (A & V & P) & _).
  pose proof (defineMTReg_default_calibrated w1) as C.
  rewrite R, M, A, V, P. repeat split. exact C.
Qed.

(** [begin], run from the world its first lines leave. *)
Lemma begin_phases (mode : sensors_resolution_t) (autoPowerDown : bool) (w : World) :
  let w1 := snd (begin_setup mode autoPowerDown w) in
  let hm := begin_hardwareMode mode autoPowerDown in
  let w2 := snd (set_hardwareMode hm w1) in
  begin mode autoPowerDown w =
  if u8 hm =? 255 then (false, w2)
  else if fst (selectResolutionMode (u8 hm) delay w2)
       then (true, snd (selectResolutionMode (u8 hm) delay w2))
       else (false, snd (set_hardwareMode 255 (snd (selectResolutionMode (u8 hm) delay w2)))).
Proof.
  cbv zeta.
  destruct (begin_setup_effect mode autoPowerDown w) as (V & _).
  unfold begin, begin_setup in *. rewrite !bind_run in *.
  cbn [get fst snd] in *.
  set (w1 := snd (defineMTReg _ _)) in *.
  rewrite V. fold (begin_hardwareMode mode autoPowerDown).
  set (hm := begin_hardwareMode mode autoPowerDown).
  cbn [set_hardwareMode modify fst snd this _hardwareMode].
  destruct (u8 hm =? 255); [reflexivity |].
  rewrite bind_run. destruct (fst (selectResolutionMode _ _ _)); [reflexivity |].
  rewrite bind_run. reflexivity.
Qed.

Lemma legal_hardwareMode_uint8 (hm : Z) : legal_hardwareMode hm -> 0 <= hm <= 255.
Proof.
  unfold legal_hardwareMode. intros [-> | [-> | [-> | [-> | [-> | [-> | ->]]]]]];
    cbv; split; discriminate.
Qed.

Lemma readLightLevel_this_uninitialized (fDelayPtr : DelayFuncPtr) (w : World) :
  _hardwareMode (this w) = 255 -> readLightLevel fDelayPtr w = ((-1)%Q, w).
Proof.
  intros H. rewrite readLightLevel_phases, bind_run, isInitialized_spec.
  cbn [fst snd]. now rewrite H.
Qed.

Lemma readLightLevel_consistent (fDelayPtr : DelayFuncPtr) (w : World) :
  consistent (this w) -> consistent (this (snd (readLightLevel fDelayPtr w))).
Proof.
  intros [L C]. destruct (Z.eq_dec (_hardwareMode (this w)) 255) as [E | I].
  - rewrite (readLightLevel_this_uninitialized _ _ E). now split.
  - rewrite (readLightLevel_initialized _ _ I).
    destruct (readLightLevel_prepare_effect fDelayPtr w I (legal_hardwareMode_uint8 _ L))
      as (I1 & _ & L1 & _ & C1).
    destruct (readLightLevel_final_effect (snd (readLightLevel_prepare fDelayPtr w)))
      as (M2 & _ & _ & C2).
    split; [rewrite M2; auto | intros _; auto].
Qed.

Lemma powerDown_this (w : World) : this (snd (powerDown w)) = this w.
Proof.
  unfold powerDown. rewrite bind_run, isInitialized_spec. cbn [fst snd].
  destruct (negb _); [reflexivity |].
  rewrite bind_run. cbn [ret snd]. apply write8_this.
Qed.

Lemma begin_consistent (mode : sensors_resolution_t) (autoPowerDown : bool) (w : World) :
  consistent (this (snd (begin mode autoPowerDown w))).
Proof.
  rewrite begin_phases. cbv zeta.
  destruct (begin_setup_effect mode autoPowerDown w) as (_ & _ & _ & _ & _ & C).
  set (w1 := snd (begin_setup mode autoPowerDown w)) in *.
  set (hm := begin_hardwareMode mode autoPowerDown).
  destruct (u8 hm =? 255) eqn:E.
  - apply Z.eqb_eq in E. cbn [snd set_hardwareMode modify this].
    split; cbn [_hardwareMode]; [left; exact E | intros N; contradiction].
  - apply Z.eqb_neq in E.
    set (w2 := snd (set_hardwareMode hm w1)).
    assert (I2 : _hardwareMode (this w2) <> 255) by exact E.
    assert (C2 : calibrated (this w2)) by exact C.
    destruct (selectResolutionMode_effect (u8 hm) delay w2 I2) as (M3 & _ & _ & C3).
    rewrite u8_idem in M3.
    assert (L : legal_hardwareMode (u8 hm)).
    { destruct (valid_resolution_dec mode) as [V | N].
      - destruct (begin_hardwareMode_valid mode autoPowerDown V) as (_ & U & _ & L).
        fold hm in U, L. now rewrite U.
      - unfold hm in E. rewrite (begin_hardwareMode_invalid _ _ N) in E.
        now contradiction E. }
    destruct (fst (selectResolutionMode (u8 hm) delay w2)); cbn [snd].
    + split; [now rewrite M3 | auto].
    + cbn [set_hardwareMode modify snd this]. split; cbn [_hardwareMode].
      * left; reflexivity.
      * intros N; now contradiction N.
Qed.

Lemma isPresent_phases (w : World) :
  isPresent w =
  if negb (u8 (next_answer (board w)) =? 0) then (false, address_checked w)
  else
    (init <- isInitialized ;;
     (if negb init then
        selectResolutionMode BH1750_ONE_TIME_LOW_RES_MODE delay ;;
        set_hardwareMode 255
      else powerOn) ;;
     lux <- readLightLevel delay ;;
     ret (Qle_bool 0 lux)) (address_checked w).
Proof.
  unfold isPresent.
  rewrite bind_run. cbn [get fst snd].
  rewrite bind_run. rewrite bind_run.
  assert (E : snd (Wire_endTransmission (snd (Wire_beginTransmission (_address (this w)) w)))
              = address_checked w).
  { unfold Wire_beginTransmission, Wire_endTransmission, on_board, record, consume,
      address_checked, next_answer.
    cbn [fst snd this board answers asked trace].
    rewrite <- app_assoc. reflexivity. }
  rewrite E.
  change (fst (Wire_endTransmission (snd (Wire_beginTransmission (_address (this w)) w))))
    with (u8 (next_answer (board w))).
  destruct (negb _); reflexivity.
Qed.

Lemma isPresent_consistent (w : World) :
  consistent (this w) -> consistent (this (snd (isPresent w))).
Proof.
  intros [L C]. rewrite isPresent_phases.
  destruct (negb _); [now split |].
  set (w1 := address_checked w).
  rewrite bind_run, isInitialized_spec. cbn [fst snd].
  change (this w1) with (this w).
  destruct (_hardwareMode (this w) =? 255) eqn:E; cbn [negb].
  - rewrite !bind_run.
    set (w2 := snd (set_hardwareMode 255 _)).
    assert (U : _hardwareMode (this w2) = 255) by reflexivity.
    rewrite (readLightLevel_this_uninitialized _ _ U). cbn [ret fst snd].
    split; [left; exact U | intros N; contradiction].
  - apply Z.eqb_neq in E. rewrite !bind_run. cbn [ret snd].
    apply readLightLevel_consistent.
    destruct (powerOn_effect w1) as (M & _ & _ & C1).
    change (this w1) with (this w) in M, C1.
    rewrite (u8_small _ (legal_hardwareMode_uint8 _ L)) in M.
    split; rewrite M; auto.
Qed.

Lemma perform_consistent (op : Operation) (w : World) :
  consistent (this w) -> consistent (this (perform op w)).
Proof.
  intros H. destruct op; cbn [perform].
  - apply begin_consistent.
  - now apply isPresent_consistent.
  - now apply readLightLevel_consistent.
  - now rewrite powerDown_this.
Qed.

Lemma perform_all_consistent (ops : list Operation) (w : World) :
  consistent (this w) -> consistent (this (perform_all ops w)).
Proof.
  revert w. induction ops as [| op ops IH]; intros w H; cbn [perform_all fold_left].
  - exact H.
  - apply IH, perform_consistent, H.
Qed.

Lemma new_AS_BH1750_consistent (address : Z) (uninit : AS_BH1750) :
  consistent (new_AS_BH1750 address uninit).
Proof. split; [left; reflexivity | intros N; now contradiction N]. Qed.

(** X16. Every initialized object reached from a fresh one is calibrated:
    its hardware mode is a byte and its scale factor is 69 divided by its
    register, or unused because the register holds 69. The hypothesis of
    the theorem on the sentinel is met wherever [readLightLevel] gets past
    its guard. *)
Lemma initialized_objects_are_calibrated (address : Z) (uninit : AS_BH1750)
    (b : Arduino) (ops : list Operation) :
  let h := this (perform_all ops (mkWorld (new_AS_BH1750 address uninit) b)) in
  _hardwareMode h <> 255 -> 0 <= _hardwareMode h <= 255 /\ calibrated h.
Proof.
  cbv zeta. intros I.
  destruct (perform_all_consistent ops (mkWorld (new_AS_BH1750 address uninit) b)
              (new_AS_BH1750_consistent address uninit)) as [L C].
  split; [now apply legal_hardwareMode_uint8 | auto].
Qed.

(** * The claims *)

(** C1 (the code departs from the claim). Raising the register from 69 to
    254 must send the high byte [0x47] and then the low byte [0x7E]. The
    method sends [0x47] twice: the low byte never reaches the bus. *)
Theorem defineMTReg_254_never_sends_low_byte :
  let w := started RESOLUTION_NORMAL false quiet_board in
  _MTreg (this w) = 69 /\
  Z.lor 0x40 (Z.shiftr 254 5) = 0x47 /\
  Z.lor 0x60 (Z.land 254 0x1F) = 0x7E /\
  trace (board (snd (defineMTReg 254 w))) =
  [beginTransmission_call 0x23; write_call 0x47; endTransmission_call 0;
   beginTransmission_call 0x23; write_call 0x47; endTransmission_call 0] /\
  ~ In (write_call 0x7E) (trace (board (snd (defineMTReg 254 w)))).
Proof.
  cbv zeta. split; [vm_compute; reflexivity |].
  split; [vm_compute; reflexivity |].
  split; [vm_compute; reflexivity |].
  assert (T : trace (board (snd (defineMTReg 254
                 (started RESOLUTION_NORMAL false quiet_board)))) =
              [beginTransmission_call 0x23; write_call 0x47; endTransmission_call 0;
               beginTransmission_call 0x23; write_call 0x47; endTransmission_call 0])
    by (vm_compute; reflexivity).
  rewrite T. split; [reflexivity |].
  intros H. cbn [In] in H.
  repeat (destruct H as [H | H]; [discriminate H |]). exact H.
Qed.

(** C2. In the auto-high virtual mode every probe value [p] lies in
    [0, 65535] and in one of four bands that do not overlap, and each band
    leaves the object as stated: below 10 the register is 254 and the hardware mode a
    mode-2 variant; from 10 to 32766 the register stays 69 with a mode-2
    variant; from 32767 to 59999 the register stays 69 with a mode-1
    variant; from 60000 on the register is 32 with a mode-1 variant. The
    variant is the one-time one when auto power down is set, the continuous
    one otherwise. *)
Theorem autoHigh_bands (fDelayPtr : DelayFuncPtr) (w : World) :
  fst (isInitialized w) = true ->
  0 <= _hardwareMode (this w) <= 255 ->
  _virtualMode (this w) = RESOLUTION_AUTO_HIGH ->
  let w0 := snd (readLightLevel_wake w) in
  let p := fst (autoHigh_probe fDelayPtr w0) in
  let probed := this (snd (autoHigh_probe fDelayPtr w0)) in
  let h' := this (snd (readLightLevel fDelayPtr w)) in
  let mode_1 := if _autoPowerDown (this w)
                then BH1750_ONE_TIME_HIGH_RES_MODE
                else BH1750_CONTINUOUS_HIGH_RES_MODE in
  let mode_2 := if _autoPowerDown (this w)
                then BH1750_ONE_TIME_HIGH_RES_MODE_2
                else BH1750_CONTINUOUS_HIGH_RES_MODE_2 in
  0 <= p <= 65535 /\
  (p < 10 \/ 10 <= p < 32767 \/ 32767 <= p < 60000 \/ 60000 <= p) /\
  _MTreg probed = 69 /\
  (p < 10 -> _MTreg h' = 254 /\ _hardwareMode h' = mode_2) /\
  (10 <= p < 32767 -> _MTreg h' = 69 /\ _hardwareMode h' = mode_2) /\
  (32767 <= p < 60000 -> _MTreg h' = 69 /\ _hardwareMode h' = mode_1) /\
  (60000 <= p -> _MTreg h' = 32 /\ _hardwareMode h' = mode_1).
Proof.
  intros I U V. apply isInitialized_true in I. cbv zeta.
  destruct (readLightLevel_wake_effect w U) as (M0 & R0 & W0 & _).
  set (w0 := snd (readLightLevel_wake w)) in *.
  assert (I0 : _hardwareMode (this w0) <> 255) by congruence.
  destruct (autoHigh_probe_effect fDelayPtr w0 I0) as (M1 & R1 & W1 & _).
  set (p := fst (autoHigh_probe fDelayPtr w0)).
  set (w1 := snd (autoHigh_probe fDelayPtr w0)) in *.
  assert (I1 : _hardwareMode (this w1) <> 255) by (rewrite M1; discriminate).
  destruct (autoHigh_adjust_effect fDelayPtr p w1 I1) as (M2 & R2 & _ & _).
  assert (A : _autoPowerDown (this w1) = _autoPowerDown (this w)).
  { destruct W0 as (_ & _ & A0), W1 as (_ & _ & A1). congruence. }
  rewrite A in M2.
  assert (E : snd (readLightLevel_prepare fDelayPtr w) = snd (autoHigh_adjust fDelayPtr p w1)).
  { rewrite readLightLevel_prepare_run. cbv zeta. fold w0.
    destruct W0 as (_ & V0 & _). rewrite V0, V. reflexivity. }
  rewrite (readLightLevel_initialized _ _ I), E.
  destruct (readLightLevel_final_effect (snd (autoHigh_adjust fDelayPtr p w1)))
    as (M3 & R3 & _ & _).
  rewrite M3, R3, M2, R2.
  assert (P : 0 <= p <= 65535).
  { subst p. unfold autoHigh_probe. rewrite !bind_run. apply readRawLevel_range. }
  unfold adjusted_MTreg, adjusted_mode, BH1750_MTREG_MAX, BH1750_MTREG_DEFAULT.
  split; [exact P | split; [lia | split; [exact R1 |]]].
  destruct (p <? 10) eqn:E1; [apply Z.ltb_lt in E1 | apply Z.ltb_ge in E1];
    (destruct (p <? 32767) eqn:E2; [apply Z.ltb_lt in E2 | apply Z.ltb_ge in E2]);
    (destruct (p <? 60000) eqn:E3; [apply Z.ltb_lt in E3 | apply Z.ltb_ge in E3]);
    repeat split; intros; try lia.
Qed.

Lemma autoHigh_bands_witness :
  let w := started RESOLUTION_AUTO_HIGH true (scripted_board [0; 0; 5; 0] 0) in
  fst (isInitialized w) = true /\
  fst (autoHigh_probe delay (snd (readLightLevel_wake w))) = 5 /\
  _MTreg (this (snd (readLightLevel delay w))) = 254 /\
  _hardwareMode (this (snd (readLightLevel delay w))) = BH1750_ONE_TIME_HIGH_RES_MODE_2.
Proof.
  cbv zeta.
  set (w := started RESOLUTION_AUTO_HIGH true (scripted_board [0; 0; 5; 0] 0)).
  assert (I : fst (isInitialized w) = true) by (vm_compute; reflexivity).
  assert (P : fst (autoHigh_probe delay (snd (readLightLevel_wake w))) = 5)
    by (vm_compute; reflexivity).
  assert (U : 0 <= _hardwareMode (this w) <= 255) by (vm_compute; split; discriminate).
  assert (V : _virtualMode (this w) = RESOLUTION_AUTO_HIGH) by (vm_compute; reflexivity).
  assert (A : _autoPowerDown (this w) = true) by (vm_compute; reflexivity).
  destruct (autoHigh_bands delay w I U V) as (_ & _ & _ & D & _).
  rewrite P, A in D.
  split; [exact I | split; [exact P | apply D; lia]].
Defined.

(** A probe of 65000 counts: the register drops to 32 and the measurement
    is taken in a mode-1 variant. *)
Example autoHigh_very_bright :
  let w := started RESOLUTION_AUTO_HIGH false (scripted_board [0; 253; 232; 0] 0) in
  fst (autoHigh_probe delay (snd (readLightLevel_wake w))) = 65000 /\
  _MTreg (this (snd (readLightLevel delay w))) = 32 /\
  _hardwareMode (this (snd (readLightLevel delay w))) = BH1750_CONTINUOUS_HIGH_RES_MODE.
Proof. vm_compute. repeat split. Qed.

(** C3. [convertRawValue] changes nothing and, on calibrated objects, its
    result is determined by the raw count, the register and the hardware
    mode. With the register at 69 and a hardware mode that is not a mode-2
    variant the result is [raw / 1.2]; with the register at 69 the result in
    a mode-2 variant is the result in a mode-1 variant divided by 2. *)
Theorem convertRawValue_pure_and_scaled (raw : Z) :
  0 <= raw <= 65535 ->
  (forall w, snd (convertRawValue raw w) = w) /\
  (forall w1 w2,
      calibrated (this w1) -> calibrated (this w2) ->
      _MTreg (this w1) = _MTreg (this w2) ->
      _hardwareMode (this w1) = _hardwareMode (this w2) ->
      fst (convertRawValue raw w1) = fst (convertRawValue raw w2)) /\
  (forall w,
      _MTreg (this w) = 69 -> ~ mode_2_variant (_hardwareMode (this w)) ->
      fst (convertRawValue raw w) = (inject_Z raw / (12 # 10))%Q) /\
  (forall w1 w2,
      _MTreg (this w1) = 69 -> _MTreg (this w2) = 69 ->
      mode_1_variant (_hardwareMode (this w1)) ->
      mode_2_variant (_hardwareMode (this w2)) ->
      fst (convertRawValue raw w2) = (fst (convertRawValue raw w1) / 2)%Q).
Proof.
  intros R. repeat split.
  - intros w. now rewrite convertRawValue_spec.
  - intros w1 w2 C1 C2 Hreg Hmode.
    rewrite !convertRawValue_spec. cbn [fst]. cbv zeta.
    rewrite <- Hreg, <- Hmode.
    destruct (_MTreg (this w1) =? BH1750_MTREG_DEFAULT) eqn:E; cbn [negb].
    + reflexivity.
    + apply Z.eqb_neq in E.
      destruct C1 as [C1 | [_ C1]]; [contradiction |].
      destruct C2 as [C2 | [_ C2]]; [rewrite <- Hreg in C2; contradiction |].
      rewrite C1, C2, Hreg. reflexivity.
  - intros w Hreg Hmode.
    rewrite convertRawValue_spec. cbn [fst]. cbv zeta.
    rewrite Hreg, (not_mode_2_variant_test _ Hmode), (u16_small raw R).
    reflexivity.
  - intros w1 w2 Hreg1 Hreg2 Hm1 Hm2.
    rewrite !convertRawValue_spec. cbn [fst]. cbv zeta.
    rewrite Hreg1, Hreg2.
    apply mode_2_variant_test in Hm2. rewrite Hm2.
    rewrite not_mode_2_variant_test; [reflexivity |].
    unfold mode_1_variant, mode_2_variant in *.
    unfold BH1750_CONTINUOUS_HIGH_RES_MODE, BH1750_ONE_TIME_HIGH_RES_MODE,
      BH1750_CONTINUOUS_HIGH_RES_MODE_2, BH1750_ONE_TIME_HIGH_RES_MODE_2 in *.
    lia.
Qed.

Lemma convertRawValue_pure_and_scaled_witness :
  let normal := started RESOLUTION_NORMAL false quiet_board in
  let high := started RESOLUTION_HIGH false quiet_board in
  0 <= 120 <= 65535 /\
  fst (convertRawValue 120 normal) = (inject_Z 120 / (12 # 10))%Q /\
  fst (convertRawValue 120 high) = (fst (convertRawValue 120 normal) / 2)%Q.
Proof.
  cbv zeta.
  destruct (convertRawValue_pure_and_scaled 120 ltac:(lia)) as (_ & _ & H1 & H2).
  split; [lia | split].
  - apply H1; [vm_compute; reflexivity |].
    assert (E : _hardwareMode (this (started RESOLUTION_NORMAL false quiet_board)) = 0x10)
      by (vm_compute; reflexivity).
    rewrite E. intros [H | H]; discriminate H.
  - apply H2; [vm_compute; reflexivity | vm_compute; reflexivity
              | left; vm_compute; reflexivity | left; vm_compute; reflexivity].
Defined.

(** On a quiet bus the two end-to-end readings of the data sheet's formula:
    raw 120 is 100 lx in the 1 lx mode and 50 lx in the 0.5 lx mode. *)
Example readLightLevel_normal_120 :
  (fst (readLightLevel delay
          (started RESOLUTION_NORMAL false (scripted_board [0; 120; 0]%Z 0%Z))) == 100)%Q.
Proof. vm_compute. reflexivity. Qed.

Example readLightLevel_high_120 :
  (fst (readLightLevel delay
          (started RESOLUTION_HIGH false (scripted_board [0; 120; 0]%Z 0%Z))) == 50)%Q.
Proof. vm_compute. reflexivity. Qed.

(** C4. For every [uint8_t] argument, [defineMTReg] leaves a register in
    [31, 254]: 31 for an argument below 31, 254 for one above 254, the
    argument itself otherwise. When that value is the one already stored the
    call changes nothing, neither the object nor the bus; hence a second
    call with the same argument is such a no-op. *)
Theorem defineMTReg_clamps_and_is_idempotent (val : Z) (w : World) :
  0 <= val <= 255 ->
  let w1 := snd (defineMTReg val w) in
  BH1750_MTREG_MIN <= _MTreg (this w1) <= BH1750_MTREG_MAX /\
  (val < BH1750_MTREG_MIN -> _MTreg (this w1) = BH1750_MTREG_MIN) /\
  (BH1750_MTREG_MAX < val -> _MTreg (this w1) = BH1750_MTREG_MAX) /\
  (BH1750_MTREG_MIN <= val <= BH1750_MTREG_MAX -> _MTreg (this w1) = val) /\
  (Z.max 31 (Z.min 254 val) = _MTreg (this w) -> defineMTReg val w = (tt, w)) /\
  defineMTReg val w1 = (tt, w1).
Proof.
  intros H w1.
  assert (R : _MTreg (this w1) = clamped val).
  { subst w1. destruct (Z.eq_dec (clamped val) (_MTreg (this w))) as [E | E].
    - rewrite (defineMTReg_same _ _ E). now cbn.
    - rewrite (defineMTReg_changed _ _ E). reflexivity. }
  pose proof (clamped_u8 val H) as C.
  unfold BH1750_MTREG_MIN, BH1750_MTREG_MAX.
  repeat split; try lia.
  - intros E. apply defineMTReg_same. lia.
  - apply defineMTReg_same. now rewrite R.
Qed.

Lemma defineMTReg_clamps_and_is_idempotent_witness :
  let w1 := snd (defineMTReg 20 fresh) in
  _MTreg (this w1) = 31 /\ defineMTReg 20 w1 = (tt, w1).
Proof.
  pose proof (defineMTReg_clamps_and_is_idempotent 20 fresh ltac:(lia)) as H.
  cbv zeta in *. destruct H as (_ & H1 & _ & _ & _ & H2).
  split; [apply H1; reflexivity | exact H2].
Defined.

(** C5. When the final raw read of [readLightLevel] on an initialized,
    calibrated object yields 65535, the method probes the presence of the
    device: an addressed transmission without data. If the probe fails the
    result is -1. If it succeeds the result is the conversion of 65535, a
    positive illuminance; so the result is -1 exactly when the probe
    fails. *)
Theorem readLightLevel_sentinel_is_probed (fDelayPtr : DelayFuncPtr) (w : World) :
  fst (isInitialized w) = true ->
  0 <= _hardwareMode (this w) <= 255 ->
  calibrated (this w) ->
  let w1 := snd (readLightLevel_prepare fDelayPtr w) in
  let raw := fst (readRawLevel w1) in
  let w2 := snd (readRawLevel w1) in
  let st := u8 (next_answer (board w2)) in
  let lux := fst (readLightLevel fDelayPtr w) in
  let w' := snd (readLightLevel fDelayPtr w) in
  raw = 65535 ->
  trace (board w') =
    trace (board w2) ++
    [beginTransmission_call (_address (this w)); endTransmission_call st] /\
  (st <> 0 -> lux = (-1)%Q) /\
  (st = 0 -> lux = fst (convertRawValue 65535 w2) /\ (0 < lux)%Q) /\
  ((lux == -1)%Q <-> st <> 0).
Proof.
  intros I U C. apply isInitialized_true in I. cbv zeta. intros Hraw.
  rewrite (readLightLevel_initialized _ _ I).
  destruct (readLightLevel_prepare_effect fDelayPtr w I U) as (_ & _ & _ & W1 & C1).
  specialize (C1 C).
  set (w1 := snd (readLightLevel_prepare fDelayPtr w)) in *.
  rewrite readLightLevel_final_spec. cbv zeta.
  destruct (readRawLevel_effect w1) as (_ & _ & _ & W2 & C2). specialize (C2 C1).
  set (w2 := snd (readRawLevel w1)) in *.
  rewrite Hraw. change (65535 =? 65535) with true. cbv iota.
  assert (A : _address (this w2) = _address (this w)).
  { destruct W1 as (A1 & _), W2 as (A2 & _). congruence. }
  rewrite A.
  assert (Pos : (0 < fst (convertRawValue 65535 w2))%Q)
    by (apply convertRawValue_positive; [lia | exact C2]).
  set (st := u8 (next_answer (board w2))).
  destruct (st =? 0) eqn:E; cbn [negb fst snd board trace].
  - apply Z.eqb_eq in E. repeat split; try easy.
    intros Q. rewrite Q in Pos. discriminate Pos.
  - apply Z.eqb_neq in E. repeat split; try easy.
Qed.

Lemma readLightLevel_sentinel_is_probed_witness :
  let w := started RESOLUTION_NORMAL false (scripted_board [255; 255; 0; 2] 0) in
  fst (isInitialized w) = true /\
  fst (readRawLevel (snd (readLightLevel_prepare delay w))) = 65535 /\
  fst (readLightLevel delay w) = (-1)%Q.
Proof.
  cbv zeta.
  set (w := started RESOLUTION_NORMAL false (scripted_board [255; 255; 0; 2] 0)).
  assert (I : fst (isInitialized w) = true) by (vm_compute; reflexivity).
  assert (U : 0 <= _hardwareMode (this w) <= 255) by (vm_compute; split; discriminate).
  assert (C : calibrated (this w)) by (left; vm_compute; reflexivity).
  assert (R : fst (readRawLevel (snd (readLightLevel_prepare delay w))) = 65535)
    by (vm_compute; reflexivity).
  destruct (readLightLevel_sentinel_is_probed delay w I U C R) as (_ & F & _ & _).
  split; [exact I | split; [exact R | apply F]].
  vm_compute. discriminate.
Defined.

(** The same read on a bus whose presence probe succeeds: 65535 counts are
    converted like any other reading. *)
Example readLightLevel_sentinel_converted :
  let w := started RESOLUTION_NORMAL false (scripted_board [255; 255; 0; 0] 0) in
  fst (readRawLevel (snd (readLightLevel_prepare delay w))) = 65535 /\
  (fst (readLightLevel delay w) == 109225 # 2)%Q.
Proof. vm_compute. split; reflexivity. Qed.

(** C6. [begin] with a virtual mode that is none of low, normal, high and
    auto-high returns false and leaves [isInitialized] false. With one of
    those four, when the write of the mode-select command fails, [begin]
    returns false and the hardware mode is back at 255, so that
    [isInitialized] is false; when it succeeds [begin] returns true. The
    write in question is the one the trace ends with. *)
Theorem begin_reports_failure (mode : sensors_resolution_t) (autoPowerDown : bool)
    (w : World) :
  let w' := snd (begin mode autoPowerDown w) in
  let w1 := snd (begin_setup mode autoPowerDown w) in
  let hm := begin_hardwareMode mode autoPowerDown in
  let st := u8 (next_answer (board w1)) in
  let select := [beginTransmission_call (_address (this w)); write_call hm;
                 endTransmission_call st] in
  (~ valid_resolution mode ->
   fst (begin mode autoPowerDown w) = false /\
   fst (isInitialized w') = false) /\
  (valid_resolution mode -> st <> 0 ->
   fst (begin mode autoPowerDown w) = false /\
   _hardwareMode (this w') = 255 /\
   fst (isInitialized w') = false /\
   trace (board w') = trace (board w1) ++ select) /\
  (valid_resolution mode -> st = 0 ->
   fst (begin mode autoPowerDown w) = true /\
   _hardwareMode (this w') = hm /\
   trace (board w') = trace (board w1) ++ select ++ [delay_call 5]).
Proof.
  cbv zeta. rewrite begin_phases. cbv zeta.
  destruct (begin_setup_effect mode autoPowerDown w) as (_ & _ & A & _).
  set (w1 := snd (begin_setup mode autoPowerDown w)) in *.
  set (hm := begin_hardwareMode mode autoPowerDown).
  split; [| split].
  - intros N. unfold hm. rewrite (begin_hardwareMode_invalid _ _ N).
    change (u8 255 =? 255) with true. cbv iota. split; reflexivity.
  - intros V F.
    destruct (begin_hardwareMode_valid mode autoPowerDown V) as (N & E & Me & _).
    fold hm in N, E, Me. rewrite E. apply Z.eqb_neq in N. rewrite N.
    set (w2 := snd (set_hardwareMode hm w1)).
    assert (I2 : _hardwareMode (this w2) <> 255) by (cbn; rewrite E; now apply Z.eqb_neq).
    assert (Me' : is_measurement_mode (u8 hm) = true) by now rewrite E.
    rewrite (selectResolutionMode_accepted hm delay w2 I2 Me').
    rewrite write8_spec. cbv zeta. cbn [fst snd this board answers asked trace].
    change (board w2) with (board w1).
    change (_address (selected (u8 hm) (this w2))) with (_address (this w1)).
    change (answers (board w1) (asked (board w1))) with (next_answer (board w1)).
    apply Z.eqb_neq in F. rewrite F. cbn [fst snd this board trace].
    rewrite !E, A. repeat split.
  - intros V S.
    destruct (begin_hardwareMode_valid mode autoPowerDown V) as (N & E & Me & _).
    fold hm in N, E, Me. rewrite E. apply Z.eqb_neq in N. rewrite N.
    set (w2 := snd (set_hardwareMode hm w1)).
    assert (I2 : _hardwareMode (this w2) <> 255) by (cbn; rewrite E; now apply Z.eqb_neq).
    assert (Me' : is_measurement_mode (u8 hm) = true) by now rewrite E.
    rewrite (selectResolutionMode_accepted hm delay w2 I2 Me').
    rewrite write8_spec. cbv zeta. cbn [fst snd this board answers asked trace].
    change (board w2) with (board w1).
    change (_address (selected (u8 hm) (this w2))) with (_address (this w1)).
    change (answers (board w1) (asked (board w1))) with (next_answer (board w1)).
    rewrite S. cbn [Z.eqb fst snd this board trace delay record].
    rewrite !E, A, <- app_assoc. repeat split.
Qed.

Lemma begin_reports_failure_witness :
  (fst (begin 7 true fresh) = false /\
   fst (isInitialized (snd (begin 7 true fresh))) = false) /\
  (let w := mkWorld (this fresh) (scripted_board [0; 0; 2] 0) in
   fst (begin RESOLUTION_NORMAL false w) = false /\
   _hardwareMode (this (snd (begin RESOLUTION_NORMAL false w))) = 255).
Proof.
  split.
  - apply (begin_reports_failure 7 true fresh).
    intros [H | [H | [H | H]]]; discriminate H.
  - cbv zeta.
    destruct (begin_reports_failure RESOLUTION_NORMAL false
                (mkWorld (this fresh) (scripted_board [0; 0; 2] 0)))
      as (_ & F & _).
    destruct F as (F1 & F2 & _).
    + right; left; reflexivity.
    + vm_compute. discriminate.
    + split; [exact F1 | exact F2].
Defined.

(** C7. On an object for which [isInitialized] is false, [readLightLevel]
    returns exactly -1, and [powerOn] and [powerDown] return at once: the
    object is unchanged, nothing is asked of the bus and nothing is added to
    the trace of calls. This holds for every state of the other fields and
    every behaviour of the bus. *)
Theorem uninitialized_object_is_inert (fDelayPtr : DelayFuncPtr) (w : World) :
  fst (isInitialized w) = false ->
  readLightLevel fDelayPtr w = ((-1)%Q, w) /\
  powerOn w = (tt, w) /\
  powerDown w = (tt, w).
Proof.
  intros H.
  unfold readLightLevel, powerOn, powerDown.
  repeat split; unfold bind at 1;
    destruct (isInitialized w) as [init w'] eqn:E;
    rewrite isInitialized_spec in E; inversion E; subst;
    cbn [fst] in H; rewrite H; reflexivity.
Qed.

Lemma uninitialized_object_is_inert_witness :
  fst (isInitialized fresh) = false /\
  (readLightLevel delay fresh = ((-1)%Q, fresh) /\
   powerOn fresh = (tt, fresh) /\
   powerDown fresh = (tt, fresh)).
Proof.
  split; [reflexivity | apply (uninitialized_object_is_inert delay fresh); reflexivity].
Defined.

(** C8. Whatever the bus hands back, [readRawLevel] asks the device at
    [_address] for exactly 2 bytes, once, and returns a value of 16 bits.
    When the closing [endTransmission] reports failure it returns 65535,
    also when [Wire.read()] had nothing to return. When it reports success
    and the two values read are bytes, it returns [(first << 8) | second]. *)
Theorem readRawLevel_big_endian_or_sentinel (w : World) :
  let b := board w in
  let a := _address (this w) in
  let first := answers b (asked b) in
  let second := answers b (S (asked b)) in
  let st := u8 (answers b (S (S (asked b)))) in
  trace (board (snd (readRawLevel w))) =
    trace b ++ [beginTransmission_call a; requestFrom_call a 2;
                read_call first; read_call second; endTransmission_call st] /\
  (st = 0 -> 0 <= first <= 255 -> 0 <= second <= 255 ->
   fst (readRawLevel w) = Z.lor (Z.shiftl first 8) second) /\
  (st <> 0 -> fst (readRawLevel w) = 65535) /\
  0 <= fst (readRawLevel w) <= 65535.
Proof.
  intros b a first second st.
  pose proof (readRawLevel_range w) as R.
  rewrite readRawLevel_spec in *. cbv zeta in *.
  fold b a first second st in R |- *.
  destruct (st =? 0) eqn:E; cbn [fst snd board trace] in *.
  - apply Z.eqb_eq in E.
    split; [reflexivity | split; [| split; [intros N; contradiction | exact R]]].
    intros _ H1 H2. now apply big_endian_u16.
  - apply Z.eqb_neq in E.
    split; [reflexivity | split; [intros Z0; contradiction | split; [reflexivity | lia]]].
Qed.

Lemma readRawLevel_big_endian_or_sentinel_witness :
  let w := started RESOLUTION_NORMAL false (scripted_board [0x12; 0x34; 0] 0) in
  let failed := started RESOLUTION_NORMAL false (scripted_board [-1; -1; 2] 0) in
  fst (readRawLevel w) = 0x1234 /\
  trace (board (snd (readRawLevel w))) =
    [beginTransmission_call 0x23; requestFrom_call 0x23 2;
     read_call 0x12; read_call 0x34; endTransmission_call 0] /\
  fst (readRawLevel failed) = 65535.
Proof.
  cbv zeta.
  destruct (readRawLevel_big_endian_or_sentinel
              (started RESOLUTION_NORMAL false (scripted_board [0x12; 0x34; 0] 0)))
    as (T & V & _ & _).
  destruct (readRawLevel_big_endian_or_sentinel
              (started RESOLUTION_NORMAL false (scripted_board [-1; -1; 2] 0)))
    as (_ & _ & F & _).
  split; [| split].
  - rewrite V; [vm_compute; reflexivity | vm_compute; reflexivity
               | vm_compute; split; discriminate | vm_compute; split; discriminate].
  - rewrite T. vm_compute. reflexivity.
  - apply F. vm_compute. discriminate.
Defined.

(** When nothing was received [Wire.read()] returns -1 twice; should the
    closing [endTransmission] report success all the same, the result is
    65535 as well. *)
Example readRawLevel_nothing_received :
  fst (readRawLevel (started RESOLUTION_NORMAL false (scripted_board [-1; -1; 0] 0)))
  = 65535.
Proof. vm_compute. reflexivity. Qed.

(** C9. From a freshly constructed object, whatever its memory held and
    however the bus behaves, after every sequence of [begin], [isPresent],
    [readLightLevel] and [powerDown] the hardware mode is 255 or one of the
    six measurement commands 0x10, 0x11, 0x13, 0x20, 0x21, 0x23. *)
Theorem hardwareMode_always_legal (address : Z) (uninit : AS_BH1750) (b : Arduino)
    (ops : list Operation) :
  let hm := _hardwareMode
              (this (perform_all ops (mkWorld (new_AS_BH1750 address uninit) b))) in
  hm = 255 \/ hm = 0x10 \/ hm = 0x11 \/ hm = 0x13 \/ hm = 0x20 \/ hm = 0x21 \/ hm = 0x23.
Proof.
  cbv zeta.
  apply (perform_all_consistent ops (mkWorld (new_AS_BH1750 address uninit) b)).
  apply new_AS_BH1750_consistent.
Qed.

(** C10. On an object for which [isInitialized] is false, [isPresent]
    returns false whatever the bus answers. After the address check,
    [selectResolutionMode] refuses the one-time low-resolution mode and
    [readLightLevel] returns -1, both without touching the bus; so the
    address check is all [isPresent] adds to the trace, no command byte is
    written, and the object is unchanged. *)
Theorem isPresent_uninitialized (w : World) :
  fst (isInitialized w) = false ->
  let w1 := address_checked w in
  fst (isPresent w) = false /\
  this (snd (isPresent w)) = this w /\
  trace (board (snd (isPresent w))) =
    trace (board w) ++
    [beginTransmission_call (_address (this w));
     endTransmission_call (u8 (next_answer (board w)))] /\
  (forall d, ~ In (write_call d) (trace (board w)) ->
             ~ In (write_call d) (trace (board (snd (isPresent w))))) /\
  selectResolutionMode BH1750_ONE_TIME_LOW_RES_MODE delay w1 = (false, w1) /\
  readLightLevel delay w1 = ((-1)%Q, w1).
Proof.
  intros H. rewrite isInitialized_spec in H. cbn [fst] in H.
  apply negb_false_iff, Z.eqb_eq in H. cbv zeta.
  assert (U : _hardwareMode (this (address_checked w)) = 255) by exact H.
  assert (R : isPresent w = (false, address_checked w)).
  { rewrite isPresent_phases. destruct (negb _); [reflexivity |].
    rewrite bind_run, isInitialized_spec. cbn [fst snd]. rewrite U.
    change (negb (negb (255 =? 255))) with true. cbv iota.
    rewrite !bind_run.
    rewrite (selectResolutionMode_refused _ _ _ U). cbn [snd].
    set (w2 := snd (set_hardwareMode 255 (address_checked w))).
    assert (E2 : w2 = address_checked w).
    { unfold w2, address_checked, set_hardwareMode, modify. cbn [snd this board].
      destruct w as [[a hm r f v p x] b]. cbn in *. now subst hm. }
    rewrite E2, (readLightLevel_this_uninitialized _ _ U). reflexivity. }
  rewrite R. cbn [fst snd this board trace address_checked].
  repeat split.
  - intros d N I. apply in_app_or in I. destruct I as [I | I]; [now apply N |].
    cbn [In] in I. destruct I as [I | [I | I]]; [discriminate I | discriminate I | exact I].
  - now apply selectResolutionMode_refused.
  - now apply readLightLevel_this_uninitialized.
Qed.

Lemma isPresent_uninitialized_witness :
  fst (isInitialized fresh) = false /\
  fst (isPresent fresh) = false /\
  trace (board (snd (isPresent fresh))) =
    [beginTransmission_call 0x23; endTransmission_call 0].
Proof.
  assert (I : fst (isInitialized fresh) = false) by (vm_compute; reflexivity).
  destruct (isPresent_uninitialized fresh I) as (F & _ & T & _).
  split; [exact I | split; [exact F | rewrite T; vm_compute; reflexivity]].
Defined.

(** * Further properties of the code *)

(** ** [begin] *)

(** [begin] in full: its result and the object it leaves. *)
Lemma begin_effect (mode : sensors_resolution_t)
    (autoPowerDown : bool) (w : World) :
  let ok := fst (begin mode autoPowerDown w) in
  let h' := this (snd (begin mode autoPowerDown w)) in
  ok = fst (isInitialized (snd (begin mode autoPowerDown w))) /\
  _virtualMode h' = mode /\
  _autoPowerDown h' = autoPowerDown /\
  _MTreg h' = BH1750_MTREG_DEFAULT /\
  _address h' = _address (this w) /\
  (ok = true ->
   valid_resolution mode /\
   _hardwareMode h' = begin_hardwareMode mode autoPowerDown /\
   _valueReaded h' = false).
Proof.
  cbv zeta. rewrite begin_phases. cbv zeta.
  destruct (begin_setup_effect mode autoPowerDown w) as (V & P & A & _ & R & _).
  set (w1 := snd (begin_setup mode autoPowerDown w)) in *.
  set (hm := begin_hardwareMode mode autoPowerDown).
  destruct (u8 hm =? 255) eqn:E.
  - apply Z.eqb_eq in E.
    cbn [fst snd set_hardwareMode modify this isInitialized bind get ret
         _hardwareMode _virtualMode _autoPowerDown _MTreg _address].
    rewrite E. repeat split; try assumption; discriminate.
  - set (w2 := snd (set_hardwareMode hm w1)).
    assert (I2 : (_hardwareMode (this w2) =? 255) = false) by exact E.
    assert (V2 : valid_resolution mode).
    { destruct (valid_resolution_dec mode) as [V2 | N]; [exact V2 |].
      unfold hm in E. rewrite (begin_hardwareMode_invalid _ _ N) in E.
      discriminate E. }
    destruct (begin_hardwareMode_valid mode autoPowerDown V2) as (_ & U & _ & _).
    fold hm in U.
    pose proof (selectResolutionMode_this (u8 hm) delay w2) as T.
    rewrite I2, u8_idem in T.
    destruct (fst (selectResolutionMode (u8 hm) delay w2)); cbn [fst snd].
    + rewrite isInitialized_spec, T.
      cbn [fst selected _hardwareMode _virtualMode _autoPowerDown _MTreg _address
           _valueReaded].
      rewrite E. change (this w2) with
        (mkAS_BH1750 (_address (this w1)) (u8 hm) (_MTreg (this w1))
           (_MTregFactor (this w1)) (_virtualMode (this w1))
           (_autoPowerDown (this w1)) (_valueReaded (this w1))).
      cbn [_virtualMode _autoPowerDown _MTreg _address].
      repeat split; try assumption.
    + cbn [set_hardwareMode modify snd this isInitialized bind get ret fst
           _hardwareMode _virtualMode _autoPowerDown _MTreg _address].
      rewrite T.
      change (this w2) with
        (mkAS_BH1750 (_address (this w1)) (u8 hm) (_MTreg (this w1))
           (_MTregFactor (this w1)) (_virtualMode (this w1))
           (_autoPowerDown (this w1)) (_valueReaded (this w1))).
      cbn [selected _virtualMode _autoPowerDown _MTreg _address].
      repeat split; try assumption; discriminate.
Qed.

(** X1. What [begin] returns is what [isInitialized] answers afterwards.
    Whatever it returns, it has stored its two arguments and set the
    register to 69, and it has left the address alone. When it returns true
    the virtual mode was one of the four of the enumeration, the hardware
    mode is the one the table of lines 82-99 gives for it, and the flag of a
    value having been read is down. *)
Theorem begin_result_and_configuration (mode : sensors_resolution_t)
    (autoPowerDown : bool) (w : World) :
  let ok := fst (begin mode autoPowerDown w) in
  let h' := this (snd (begin mode autoPowerDown w)) in
  ok = fst (isInitialized (snd (begin mode autoPowerDown w))) /\
  _virtualMode h' = mode /\
  _autoPowerDown h' = autoPowerDown /\
  _MTreg h' = BH1750_MTREG_DEFAULT /\
  _address h' = _address (this w) /\
  (ok = true ->
   valid_resolution mode /\
   _hardwareMode h' = begin_hardwareMode mode autoPowerDown /\
   _valueReaded h' = false).
Proof. exact (begin_effect mode autoPowerDown w). Qed.

(** ** [selectResolutionMode] and the power commands *)

Lemma is_measurement_mode_u8 (mode : Z) :
  is_measurement_mode mode = true -> u8 mode = mode.
Proof.
  unfold is_measurement_mode. rewrite !orb_true_iff, !Z.eqb_eq.
  intros [[[[[-> | ->] | ->] | ->] | ->] | ->]; reflexivity.
Qed.

Lemma selectResolutionMode_valid_run (mode : Z) (fDelayPtr : DelayFuncPtr)
    (w : World) :
  _hardwareMode (this w) <> 255 ->
  is_measurement_mode mode = true ->
  let st := u8 (next_answer (board w)) in
  let sent := mkArduino (answers (board w)) (S (asked (board w)))
                (trace (board w) ++
                 [beginTransmission_call (_address (this w)); write_call mode;
                  endTransmission_call st]) in
  selectResolutionMode mode fDelayPtr w =
  (st =? 0,
   mkWorld (selected mode (this w)) (if st =? 0 then fDelayPtr 5 sent else sent)).
Proof.
  intros I V. cbv zeta.
  pose proof (is_measurement_mode_u8 mode V) as U.
  assert (V' : is_measurement_mode (u8 mode) = true) by now rewrite U.
  rewrite (selectResolutionMode_accepted mode fDelayPtr w I V').
  rewrite write8_spec. cbv zeta. cbn [fst snd this board answers asked trace].
  rewrite !U. unfold next_answer.
  cbn [selected _address].
  destruct (_ =? 0); reflexivity.
Qed.

(** X2. On an initialized object [selectResolutionMode] with one of the six
    measurement commands writes that command, once, and returns whether the
    write succeeded. The mode is stored and the flag of a value having been
    read is lowered whether the write succeeds or not. The delay routine is
    called once, for 5 ms and after the write, when the write succeeded, and
    not at all otherwise. *)
Theorem selectResolutionMode_sends_mode (mode : Z) (fDelayPtr : DelayFuncPtr)
    (w : World) :
  fst (isInitialized w) = true ->
  is_measurement_mode mode = true ->
  let st := u8 (next_answer (board w)) in
  let sent := mkArduino (answers (board w)) (S (asked (board w)))
                (trace (board w) ++
                 [beginTransmission_call (_address (this w)); write_call mode;
                  endTransmission_call st]) in
  selectResolutionMode mode fDelayPtr w =
  (st =? 0,
   mkWorld (selected mode (this w)) (if st =? 0 then fDelayPtr 5 sent else sent)).
Proof.
  intros I V. apply isInitialized_true in I.
  exact (selectResolutionMode_valid_run mode fDelayPtr w I V).
Qed.

Lemma selectResolutionMode_sends_mode_witness :
  let w := started RESOLUTION_NORMAL false (scripted_board [2] 0) in
  fst (isInitialized w) = true /\
  fst (selectResolutionMode BH1750_ONE_TIME_HIGH_RES_MODE_2 delay w) = false /\
  _hardwareMode (this (snd (selectResolutionMode BH1750_ONE_TIME_HIGH_RES_MODE_2 delay w)))
  = BH1750_ONE_TIME_HIGH_RES_MODE_2.
Proof.
  cbv zeta.
  set (w := started RESOLUTION_NORMAL false (scripted_board [2] 0)).
  assert (I : fst (isInitialized w) = true) by (vm_compute; reflexivity).
  rewrite (selectResolutionMode_sends_mode BH1750_ONE_TIME_HIGH_RES_MODE_2 delay w I
             ltac:(vm_compute; reflexivity)).
  split; [exact I | split; [vm_compute; reflexivity | reflexivity]].
Defined.

(** X3. [selectResolutionMode] stores its argument before it checks it: on
    an initialized object a byte that is not a measurement command is
    refused (the result is false and nothing goes to the bus), yet it is now
    the hardware mode of the object. With 255 as the argument the object
    ends up uninitialized. *)
Theorem selectResolutionMode_stores_unchecked_mode (mode : Z)
    (fDelayPtr : DelayFuncPtr) (w : World) :
  fst (isInitialized w) = true ->
  0 <= mode <= 255 ->
  is_measurement_mode mode = false ->
  let w' := snd (selectResolutionMode mode fDelayPtr w) in
  fst (selectResolutionMode mode fDelayPtr w) = false /\
  board w' = board w /\
  this w' = selected mode (this w) /\
  (mode = 255 -> fst (isInitialized w') = false).
Proof.
  intros I R V. apply isInitialized_true in I. cbv zeta.
  pose proof (u8_small mode R) as U.
  assert (V' : is_measurement_mode (u8 mode) = false) by now rewrite U.
  rewrite (selectResolutionMode_invalid mode fDelayPtr w I V'), U.
  cbn [fst snd this board]. repeat split.
  intros ->. reflexivity.
Qed.

Lemma selectResolutionMode_stores_unchecked_mode_witness :
  let w := started RESOLUTION_NORMAL false quiet_board in
  fst (isInitialized w) = true /\
  fst (selectResolutionMode BH1750_RESET delay w) = false /\
  _hardwareMode (this (snd (selectResolutionMode BH1750_RESET delay w))) = BH1750_RESET.
Proof.
  cbv zeta.
  set (w := started RESOLUTION_NORMAL false quiet_board).
  assert (I : fst (isInitialized w) = true) by (vm_compute; reflexivity).
  destruct (selectResolutionMode_stores_unchecked_mode BH1750_RESET delay w I
              ltac:(vm_compute; split; discriminate) ltac:(vm_compute; reflexivity))
    as (F & _ & T & _).
  split; [exact I | split; [exact F | rewrite T; reflexivity]].
Defined.

(** X4. On an initialized object [powerDown] writes the command 0x00, once,
    whatever the bus answers, and leaves the object as it was: the hardware
    mode is remembered. *)
Theorem powerDown_sends_power_down (w : World) :
  fst (isInitialized w) = true ->
  let st := u8 (next_answer (board w)) in
  powerDown w =
  (tt,
   mkWorld (this w)
     (mkArduino (answers (board w)) (S (asked (board w)))
        (trace (board w) ++
         [beginTransmission_call (_address (this w)); write_call BH1750_POWER_DOWN;
          endTransmission_call st]))).
Proof.
  intros I. cbv zeta. unfold powerDown. rewrite bind_run, I.
  cbn [negb]. rewrite isInitialized_spec. cbn [snd].
  rewrite bind_run, write8_spec. reflexivity.
Qed.

Lemma powerDown_sends_power_down_witness :
  let w := started RESOLUTION_NORMAL false quiet_board in
  fst (isInitialized w) = true /\
  trace (board (snd (powerDown w))) =
  [beginTransmission_call 0x23; write_call 0; endTransmission_call 0].
Proof.
  cbv zeta.
  set (w := started RESOLUTION_NORMAL false quiet_board).
  assert (I : fst (isInitialized w) = true) by (vm_compute; reflexivity).
  rewrite (powerDown_sends_power_down w I).
  split; [exact I | vm_compute; reflexivity].
Defined.

(** ** [readLightLevel] in the fixed resolution modes *)

Lemma readLightLevel_prepare_fixed (fDelayPtr : DelayFuncPtr) (w : World) :
  _virtualMode (this w) <> RESOLUTION_AUTO_HIGH ->
  snd (readLightLevel_prepare fDelayPtr w) = snd (readLightLevel_wake w).
Proof.
  intros V. rewrite readLightLevel_prepare_run. cbv zeta.
  assert (E : _virtualMode (this (snd (readLightLevel_wake w))) = _virtualMode (this w)).
  { unfold readLightLevel_wake. rewrite !bind_run. cbn [get fst snd].
    destruct (_ && _); [| reflexivity].
    now destruct (powerOn_effect w) as (_ & _ & (_ & E & _) & _). }
  rewrite E. apply Z.eqb_neq in V. now rewrite V.
Qed.

(** X5. In a fixed resolution mode, when the sensor need not be woken (auto
    power down is off, or no value was read since the mode was last
    selected), [readLightLevel] on an initialized object sends no command and
    never calls the delay routine: it makes one read of two bytes. When that
    read yields a count other than 65535 the result is the conversion of the
    count and the only change to the object is the raised flag of a value
    having been read. *)
Theorem readLightLevel_fixed_mode_reads_once (fDelayPtr : DelayFuncPtr) (w : World) :
  fst (isInitialized w) = true ->
  _virtualMode (this w) <> RESOLUTION_AUTO_HIGH ->
  _autoPowerDown (this w) && _valueReaded (this w) = false ->
  let raw := fst (readRawLevel w) in
  let a := _address (this w) in
  let first := answers (board w) (asked (board w)) in
  let second := answers (board w) (S (asked (board w))) in
  readLightLevel fDelayPtr w = readLightLevel_final w /\
  (raw <> 65535 ->
   readLightLevel fDelayPtr w = (fst (convertRawValue raw w), snd (readRawLevel w)) /\
   this (snd (readRawLevel w)) = measured (this w) /\
   trace (board (snd (readRawLevel w))) =
     trace (board w) ++
     [beginTransmission_call a; requestFrom_call a 2;
      read_call first; read_call second; endTransmission_call 0]).
Proof.
  intros I V W. apply isInitialized_true in I. cbv zeta.
  assert (E : readLightLevel fDelayPtr w = readLightLevel_final w).
  { rewrite (readLightLevel_initialized _ _ I), (readLightLevel_prepare_fixed _ _ V).
    unfold readLightLevel_wake. rewrite !bind_run. cbn [get fst snd].
    rewrite W. reflexivity. }
  split; [exact E |]. intros N.
  rewrite E, readLightLevel_final_spec. cbv zeta.
  apply Z.eqb_neq in N. rewrite N.
  rewrite readRawLevel_spec in *. cbv zeta in *.
  destruct (u8 (answers (board w) (S (S (asked (board w))))) =? 0) eqn:S0.
  - apply Z.eqb_eq in S0. rewrite S0. cbn [fst snd this board trace] in *.
    repeat split.
    rewrite !convertRawValue_spec. reflexivity.
  - cbn [fst] in N. discriminate N.
Qed.

Lemma readLightLevel_fixed_mode_reads_once_witness :
  let w := started RESOLUTION_NORMAL false (scripted_board [0; 120; 0] 0) in
  fst (isInitialized w) = true /\
  fst (readRawLevel w) = 120 /\
  readLightLevel delay w = (fst (convertRawValue 120 w), snd (readRawLevel w)).
Proof.
  cbv zeta.
  set (w := started RESOLUTION_NORMAL false (scripted_board [0; 120; 0] 0)).
  assert (I : fst (isInitialized w) = true) by (vm_compute; reflexivity).
  assert (R : fst (readRawLevel w) = 120) by (vm_compute; reflexivity).
  destruct (readLightLevel_fixed_mode_reads_once delay w I
              ltac:(vm_compute; discriminate) ltac:(vm_compute; reflexivity))
    as (_ & H).
  rewrite R in H. destruct (H ltac:(discriminate)) as (H1 & _).
  split; [exact I | split; [exact R | exact H1]].
Defined.

(** X6. In a fixed resolution mode with auto power down, once a value has
    been read, [readLightLevel] first wakes the sensor: it lowers the flag,
    writes the stored hardware mode again and, when that write succeeds,
    waits 5 ms with the platform's [delay], not with the routine the caller
    passed. Then it makes its read. The caller's routine is never called. *)
Theorem readLightLevel_wakes_one_time_sensor (fDelayPtr : DelayFuncPtr) (w : World) :
  is_measurement_mode (_hardwareMode (this w)) = true ->
  _virtualMode (this w) <> RESOLUTION_AUTO_HIGH ->
  _autoPowerDown (this w) = true ->
  _valueReaded (this w) = true ->
  let hm := _hardwareMode (this w) in
  let st := u8 (next_answer (board w)) in
  let sent := mkArduino (answers (board w)) (S (asked (board w)))
                (trace (board w) ++
                 [beginTransmission_call (_address (this w)); write_call hm;
                  endTransmission_call st]) in
  readLightLevel fDelayPtr w =
  readLightLevel_final
    (mkWorld (selected hm (this w)) (if st =? 0 then delay 5 sent else sent)).
Proof.
  intros M V A R. cbv zeta.
  assert (I : _hardwareMode (this w) <> 255).
  { intros E. rewrite E in M. discriminate M. }
  rewrite (readLightLevel_initialized _ _ I), (readLightLevel_prepare_fixed _ _ V).
  unfold readLightLevel_wake. rewrite !bind_run. cbn [get fst snd].
  rewrite A, R. cbn [andb].
  unfold powerOn. rewrite bind_run, isInitialized_spec. cbn [fst snd].
  apply Z.eqb_neq in I. rewrite I. cbn [negb].
  unfold set_valueReaded. rewrite !bind_run. cbn [ret snd get fst modify this _hardwareMode].
  set (w1 := mkWorld _ (board w)).
  assert (I1 : _hardwareMode (this w1) <> 255) by now apply Z.eqb_neq.
  rewrite (selectResolutionMode_valid_run (_hardwareMode (this w)) delay w1 I1 M).
  reflexivity.
Qed.

Lemma readLightLevel_wakes_one_time_sensor_witness :
  let w := mkWorld (measured (this (started RESOLUTION_NORMAL true quiet_board)))
             (scripted_board [0; 0; 120; 0] 0) in
  _valueReaded (this w) = true /\
  trace (board (snd (readLightLevel (fun _ b => b) w))) =
  [beginTransmission_call 0x23; write_call 0x20; endTransmission_call 0; delay_call 5;
   beginTransmission_call 0x23; requestFrom_call 0x23 2;
   read_call 0; read_call 120; endTransmission_call 0].
Proof.
  cbv zeta.
  set (w := mkWorld (measured (this (started RESOLUTION_NORMAL true quiet_board)))
              (scripted_board [0; 0; 120; 0] 0)).
  rewrite (readLightLevel_wakes_one_time_sensor (fun _ b => b) w
             ltac:(vm_compute; reflexivity) ltac:(vm_compute; discriminate)
             ltac:(vm_compute; reflexivity) ltac:(vm_compute; reflexivity)).
  split; vm_compute; reflexivity.
Defined.

(** ** The conversion *)

Lemma inject_Z_nonzero (z : Z) : z <> 0 -> ~ (inject_Z z == 0)%Q.
Proof. intros N E. apply N. unfold Qeq in E. cbn in E. lia. Qed.

(** The conversion in closed form, on calibrated objects and in exact
    arithmetic; used for the bounds below. *)
Lemma convertRawValue_closed_form (raw : Z) (w : World) :
  0 <= raw <= 65535 ->
  calibrated (this w) ->
  let reg := _MTreg (this w) in
  let hm := _hardwareMode (this w) in
  let divisor := if (hm =? BH1750_CONTINUOUS_HIGH_RES_MODE_2)
                    || (hm =? BH1750_ONE_TIME_HIGH_RES_MODE_2)
                 then 2%Q else 1%Q in
  31 <= reg <= 254 /\
  (fst (convertRawValue raw w) ==
   inject_Z raw * 69 / ((12 # 10) * inject_Z reg) / divisor)%Q.
Proof.
  intros R C. cbv zeta.
  assert (B : 31 <= _MTreg (this w) <= 254).
  { destruct C as [C | [C _]]; [rewrite C; cbv; split; discriminate | exact C]. }
  split; [exact B |].
  rewrite convertRawValue_spec. cbn [fst]. cbv zeta.
  rewrite (u16_small raw R).
  pose proof (inject_Z_nonzero (_MTreg (this w)) ltac:(lia)) as NZ.
  destruct (_MTreg (this w) =? BH1750_MTREG_DEFAULT) eqn:E; cbn [negb].
  - apply Z.eqb_eq in E. rewrite E in *.
    destruct (_ || _); cbv iota; change (inject_Z BH1750_MTREG_DEFAULT) with 69%Q; field; try exact NZ; try discriminate.
  - apply Z.eqb_neq in E. destruct C as [C | [_ C]]; [contradiction |].
    rewrite C. change (inject_Z BH1750_MTREG_DEFAULT) with 69%Q.
    destruct (_ || _); cbv iota; change (inject_Z BH1750_MTREG_DEFAULT) with 69%Q; field; try exact NZ; try discriminate.
Qed.

Lemma scaled_bounds (raw reg : Z) (d : Q) :
  0 <= raw <= 65535 -> 31 <= reg <= 254 -> d = 1%Q \/ d = 2%Q ->
  (0 <= inject_Z raw * 69 / ((12 # 10) * inject_Z reg) / d <= 121557)%Q.
Proof.
  intros R B D. destruct reg as [| p | p]; try lia.
  destruct D as [-> | ->];
    unfold Qle, Qdiv, Qmult, Qinv, inject_Z; cbn;
    rewrite ?Pos2Z.inj_mul, ?Pos.mul_1_r, ?Pos.mul_1_l, ?Z.mul_1_r;
    split; nia.
Qed.

Lemma scaled_monotone (raw1 raw2 reg : Z) (d : Q) :
  raw1 <= raw2 -> 31 <= reg <= 254 -> d = 1%Q \/ d = 2%Q ->
  (inject_Z raw1 * 69 / ((12 # 10) * inject_Z reg) / d <=
   inject_Z raw2 * 69 / ((12 # 10) * inject_Z reg) / d)%Q.
Proof.
  intros R B D. destruct reg as [| p | p]; try lia.
  destruct D as [-> | ->];
    unfold Qle, Qdiv, Qmult, Qinv, inject_Z; cbn;
    rewrite ?Pos2Z.inj_mul, ?Pos.mul_1_r, ?Pos.mul_1_l, ?Z.mul_1_r;
    nia.
Qed.

Lemma convertRawValue_bounds (raw : Z) (w : World) :
  0 <= raw <= 65535 -> calibrated (this w) ->
  (0 <= fst (convertRawValue raw w) <= 121557)%Q.
Proof.
  intros R C.
  destruct (convertRawValue_closed_form raw w R C) as (B & E). cbv zeta in E.
  rewrite E. apply scaled_bounds; [exact R | exact B |].
  destruct (_ || _); [right | left]; reflexivity.
Qed.

(** X7. On a calibrated object the conversion is computed from the raw
    count, the register and the hardware mode alone, the stored scale factor
    being the quotient of 69 by the register: the result is
    [(raw / 1.2) * (69 / register)], without the factor when the register
    holds 69 (line 382), and divided by 2 in the two 0.5 lx modes. Each side
    is made of the operations of lines 374, 383, 394 and 429, in their
    order. *)
Theorem convertRawValue_formula (raw : Z) (w : World) :
  0 <= raw <= 65535 ->
  calibrated (this w) ->
  let reg := _MTreg (this w) in
  let hm := _hardwareMode (this w) in
  let flevel := (inject_Z raw / (12 # 10))%Q in
  let scaled := if reg =? BH1750_MTREG_DEFAULT then flevel
                else (flevel * (inject_Z 69 / inject_Z reg))%Q in
  BH1750_MTREG_MIN <= reg <= BH1750_MTREG_MAX /\
  (hm = BH1750_CONTINUOUS_HIGH_RES_MODE_2 \/ hm = BH1750_ONE_TIME_HIGH_RES_MODE_2 ->
   fst (convertRawValue raw w) = (scaled / 2)%Q) /\
  (hm <> BH1750_CONTINUOUS_HIGH_RES_MODE_2 -> hm <> BH1750_ONE_TIME_HIGH_RES_MODE_2 ->
   fst (convertRawValue raw w) = scaled).
Proof.
  intros R C. cbv zeta.
  assert (B : BH1750_MTREG_MIN <= _MTreg (this w) <= BH1750_MTREG_MAX).
  { destruct C as [C | [C _]]; [rewrite C; cbv; split; discriminate | exact C]. }
  split; [exact B |].
  rewrite convertRawValue_spec. cbn [fst]. cbv zeta.
  rewrite (u16_small raw R).
  assert (E : (if negb (_MTreg (this w) =? BH1750_MTREG_DEFAULT)
               then (inject_Z raw / (12 # 10) * _MTregFactor (this w))%Q
               else (inject_Z raw / (12 # 10))%Q) =
              (if _MTreg (this w) =? BH1750_MTREG_DEFAULT
               then (inject_Z raw / (12 # 10))%Q
               else (inject_Z raw / (12 # 10) *
                     (inject_Z 69 / inject_Z (_MTreg (this w))))%Q)).
  { destruct (_MTreg (this w) =? BH1750_MTREG_DEFAULT) eqn:D; cbn [negb]; [reflexivity |].
    apply Z.eqb_neq in D. destruct C as [C | [_ C]]; [contradiction |].
    rewrite C. reflexivity. }
  rewrite E. split.
  - intros M. apply mode_2_variant_test in M. now rewrite M.
  - intros N1 N2.
    now rewrite not_mode_2_variant_test by (unfold mode_2_variant; tauto).
Qed.

Lemma convertRawValue_formula_witness :
  let w := mkWorld (recalibrated 254 (this (started RESOLUTION_HIGH false quiet_board)))
             quiet_board in
  calibrated (this w) /\
  fst (convertRawValue 1000 w) =
  (inject_Z 1000 / (12 # 10) * (inject_Z 69 / inject_Z 254) / 2)%Q.
Proof.
  cbv zeta.
  set (w := mkWorld (recalibrated 254 (this (started RESOLUTION_HIGH false quiet_board)))
              quiet_board).
  assert (C : calibrated (this w)).
  { right. split; [vm_compute; split; discriminate | vm_compute; reflexivity]. }
  destruct (convertRawValue_formula 1000 w ltac:(lia) C) as (_ & F & _).
  cbv zeta in F.
  assert (R : _MTreg (this w) = 254) by (vm_compute; reflexivity).
  rewrite R in F. change (254 =? BH1750_MTREG_DEFAULT) with false in F. cbv iota in F.
  split; [exact C | apply F; left; vm_compute; reflexivity].
Defined.

(** X8. On a calibrated object the conversion never yields a negative
    value, grows with the raw count, and stays below 121557 lx, the value
    of 65535 counts at the smallest register, 31. *)
Theorem convertRawValue_bounded_and_monotone (raw1 raw2 : Z) (w : World) :
  0 <= raw1 -> raw1 <= raw2 -> raw2 <= 65535 ->
  calibrated (this w) ->
  (0 <= fst (convertRawValue raw1 w))%Q /\
  (fst (convertRawValue raw1 w) <= fst (convertRawValue raw2 w))%Q /\
  (fst (convertRawValue raw2 w) <= 121557)%Q.
Proof.
  intros R1 R12 R2 C.
  split; [apply convertRawValue_bounds; [lia | exact C] |].
  split; [| apply convertRawValue_bounds; [lia | exact C]].
  destruct (convertRawValue_closed_form raw1 w ltac:(lia) C) as (B & E1).
  destruct (convertRawValue_closed_form raw2 w ltac:(lia) C) as (_ & E2).
  cbv zeta in E1, E2. rewrite E1, E2.
  apply scaled_monotone; [exact R12 | exact B |].
  destruct (_ || _); [right | left]; reflexivity.
Qed.

Lemma convertRawValue_bounded_and_monotone_witness :
  let w := started RESOLUTION_HIGH false quiet_board in
  (0 <= fst (convertRawValue 100 w))%Q /\
  (fst (convertRawValue 100 w) <= fst (convertRawValue 200 w))%Q /\
  (fst (convertRawValue 200 w) <= 121557)%Q.
Proof.
  cbv zeta.
  apply (convertRawValue_bounded_and_monotone 100 200
           (started RESOLUTION_HIGH false quiet_board));
    try lia.
  left. vm_compute. reflexivity.
Defined.

Lemma readLightLevel_range (fDelayPtr : DelayFuncPtr) (w : World) :
  _hardwareMode (this w) <> 255 ->
  0 <= _hardwareMode (this w) <= 255 ->
  calibrated (this w) ->
  let lux := fst (readLightLevel fDelayPtr w) in
  lux = (-1)%Q \/ (0 <= lux <= 121557)%Q.
Proof.
  intros I U C. cbv zeta.
  rewrite (readLightLevel_initialized _ _ I).
  destruct (readLightLevel_prepare_effect fDelayPtr w I U) as (_ & _ & _ & _ & C1).
  specialize (C1 C).
  set (w1 := snd (readLightLevel_prepare fDelayPtr w)) in *.
  rewrite readLightLevel_final_spec. cbv zeta.
  destruct (readRawLevel_effect w1) as (_ & _ & _ & _ & C2). specialize (C2 C1).
  pose proof (readRawLevel_range w1) as R.
  pose proof (convertRawValue_bounds _ _ R C2) as B.
  destruct (fst (readRawLevel w1) =? 65535); [destruct (negb _) |]; cbn [fst]; auto.
Qed.

(** X9. On an initialized, calibrated object [readLightLevel] returns -1 or
    an illuminance between 0 and 121557 lx: the test [readLightLevel() >= 0]
    of [isPresent] tells a failure from a reading. *)
Theorem readLightLevel_result_range (fDelayPtr : DelayFuncPtr) (w : World) :
  fst (isInitialized w) = true ->
  0 <= _hardwareMode (this w) <= 255 ->
  calibrated (this w) ->
  let lux := fst (readLightLevel fDelayPtr w) in
  lux = (-1)%Q \/ (0 <= lux <= 121557)%Q.
Proof.
  intros I U C. apply isInitialized_true in I.
  exact (readLightLevel_range fDelayPtr w I U C).
Qed.

Lemma readLightLevel_result_range_witness :
  let w := started RESOLUTION_NORMAL false (scripted_board [0; 120; 0] 0) in
  fst (isInitialized w) = true /\
  (fst (readLightLevel delay w) = (-1)%Q \/
   (0 <= fst (readLightLevel delay w) <= 121557)%Q).
Proof.
  cbv zeta.
  set (w := started RESOLUTION_NORMAL false (scripted_board [0; 120; 0] 0)).
  assert (I : fst (isInitialized w) = true) by (vm_compute; reflexivity).
  split; [exact I |].
  apply (readLightLevel_result_range delay w I).
  - vm_compute; split; discriminate.
  - left. vm_compute. reflexivity.
Defined.

(** ** What the operations keep *)

Lemma readLightLevel_keeps_initialization (fDelayPtr : DelayFuncPtr) (w : World) :
  0 <= _hardwareMode (this w) <= 255 ->
  (_hardwareMode (this (snd (readLightLevel fDelayPtr w))) =? 255) =
  (_hardwareMode (this w) =? 255).
Proof.
  intros U. destruct (Z.eq_dec (_hardwareMode (this w)) 255) as [E | I].
  - now rewrite (readLightLevel_this_uninitialized _ _ E).
  - rewrite (readLightLevel_initialized _ _ I).
    destruct (readLightLevel_prepare_effect fDelayPtr w I U) as (I1 & _).
    destruct (readLightLevel_final_effect (snd (readLightLevel_prepare fDelayPtr w)))
      as (M2 & _).
    rewrite M2. apply Z.eqb_neq in I, I1. now rewrite I, I1.
Qed.

Lemma isPresent_keeps_initialization (w : World) :
  0 <= _hardwareMode (this w) <= 255 ->
  (_hardwareMode (this (snd (isPresent w))) =? 255) = (_hardwareMode (this w) =? 255).
Proof.
  intros U. rewrite isPresent_phases.
  destruct (negb _); [reflexivity |].
  set (w1 := address_checked w).
  rewrite bind_run, isInitialized_spec. cbn [fst snd].
  change (this w1) with (this w).
  destruct (_hardwareMode (this w) =? 255) eqn:E; cbn [negb].
  - rewrite !bind_run.
    set (w2 := snd (set_hardwareMode 255 _)).
    assert (U2 : _hardwareMode (this w2) = 255) by reflexivity.
    rewrite (readLightLevel_this_uninitialized _ _ U2). cbn [ret fst snd].
    now rewrite U2.
  - rewrite !bind_run. cbn [ret snd].
    destruct (powerOn_effect w1) as (M & _).
    change (this w1) with (this w) in M. rewrite (u8_small _ U) in M.
    rewrite readLightLevel_keeps_initialization by (rewrite M; exact U).
    now rewrite M.
Qed.

(** X10. Only [begin] changes whether the object is initialized:
    [isPresent], [readLightLevel] and [powerDown] leave the answer of
    [isInitialized] as it was, whatever the bus does. *)
Theorem only_begin_changes_initialization (fDelayPtr : DelayFuncPtr) (w : World) :
  0 <= _hardwareMode (this w) <= 255 ->
  fst (isInitialized (snd (isPresent w))) = fst (isInitialized w) /\
  fst (isInitialized (snd (readLightLevel fDelayPtr w))) = fst (isInitialized w) /\
  fst (isInitialized (snd (powerDown w))) = fst (isInitialized w).
Proof.
  intros U. rewrite !isInitialized_spec. cbn [fst].
  rewrite isPresent_keeps_initialization, readLightLevel_keeps_initialization,
    powerDown_this by exact U.
  repeat split.
Qed.

Lemma only_begin_changes_initialization_witness :
  let w := started RESOLUTION_AUTO_HIGH true (scripted_board [2; 2; 2; 2; 2; 2; 2; 2] 2) in
  fst (isInitialized w) = true /\
  fst (isInitialized (snd (isPresent w))) = true /\
  fst (isInitialized (snd (readLightLevel delay w))) = true /\
  fst (isInitialized (snd (powerDown w))) = true.
Proof.
  cbv zeta.
  set (w := started RESOLUTION_AUTO_HIGH true (scripted_board [2; 2; 2; 2; 2; 2; 2; 2] 2)).
  assert (I : fst (isInitialized w) = true) by (vm_compute; reflexivity).
  destruct (only_begin_changes_initialization delay w
              ltac:(vm_compute; split; discriminate)) as (H1 & H2 & H3).
  rewrite H1, H2, H3. repeat split; exact I.
Defined.

(** ** Register and hardware mode go together *)

Lemma begin_hardwareMode_uint8 (mode : sensors_resolution_t) (apd : bool) :
  0 <= begin_hardwareMode mode apd <= 255.
Proof.
  unfold begin_hardwareMode.
  destruct (mode =? RESOLUTION_LOW), (mode =? RESOLUTION_NORMAL),
    (mode =? RESOLUTION_HIGH), (mode =? RESOLUTION_AUTO_HIGH), apd;
    cbv; split; discriminate.
Qed.

Lemma settled_uint8 (h : AS_BH1750) : settled h -> 0 <= _hardwareMode h <= 255.
Proof.
  intros [E | [(_ & E & _) | (_ & S)]].
  - rewrite E. lia.
  - rewrite E. apply begin_hardwareMode_uint8.
  - destruct (_autoPowerDown h);
      destruct S as [(_ & ->) | [(_ & ->) | [(_ & ->) | [(_ & ->) | (_ & ->)]]]];
      cbv; split; discriminate.
Qed.

(** [settled] looks at four fields only. *)
Lemma settled_same_fields (h h' : AS_BH1750) :
  _hardwareMode h' = _hardwareMode h -> _MTreg h' = _MTreg h ->
  same_wiring h h' -> settled h -> settled h'.
Proof.
  intros M R (_ & V & A). unfold settled. rewrite M, R, V, A. tauto.
Qed.

Lemma adjusted_setting (apd : bool) (level : Z) :
  auto_high_setting apd (adjusted_MTreg level) (adjusted_mode apd level).
Proof.
  unfold auto_high_setting, adjusted_MTreg, adjusted_mode.
  destruct (level <? 10); [right; left; now split |].
  destruct (level <? 32767); [right; right; left; now split |].
  destruct (level <? 60000); [right; right; right; left; now split |].
  right; right; right; right; now split.
Qed.

Lemma begin_settled (mode : sensors_resolution_t) (autoPowerDown : bool) (w : World) :
  settled (this (snd (begin mode autoPowerDown w))).
Proof.
  destruct (begin_effect mode autoPowerDown w) as (O & V & A & R & _ & S).
  cbv zeta in *. rewrite isInitialized_spec in O. cbn [fst] in O.
  destruct (fst (begin mode autoPowerDown w)).
  - destruct (S eq_refl) as (_ & M & _).
    destruct (Z.eq_dec mode RESOLUTION_AUTO_HIGH) as [E | N].
    + right; right. split; [congruence |]. left. split; [exact R |].
      rewrite M, E. reflexivity.
    + right; left. split; [congruence |]. split; [| exact R].
      rewrite M, V, A. reflexivity.
  - left. symmetry in O. apply negb_false_iff in O. now apply Z.eqb_eq.
Qed.

Lemma readLightLevel_prepare_auto (fDelayPtr : DelayFuncPtr) (w : World) :
  _hardwareMode (this w) <> 255 ->
  0 <= _hardwareMode (this w) <= 255 ->
  _virtualMode (this w) = RESOLUTION_AUTO_HIGH ->
  let h' := this (snd (readLightLevel_prepare fDelayPtr w)) in
  exists level,
    _hardwareMode h' = adjusted_mode (_autoPowerDown (this w)) level /\
    _MTreg h' = adjusted_MTreg level /\
    same_wiring (this w) h'.
Proof.
  intros I U V. cbv zeta. rewrite readLightLevel_prepare_run. cbv zeta.
  destruct (readLightLevel_wake_effect w U) as (M0 & _ & W0 & _).
  set (w0 := snd (readLightLevel_wake w)) in *.
  assert (V0 : _virtualMode (this w0) = RESOLUTION_AUTO_HIGH)
    by (destruct W0 as (_ & V0 & _); congruence).
  rewrite V0. change (RESOLUTION_AUTO_HIGH =? RESOLUTION_AUTO_HIGH) with true. cbv iota.
  assert (I0 : _hardwareMode (this w0) <> 255) by congruence.
  destruct (autoHigh_probe_effect fDelayPtr w0 I0) as (M1 & _ & W1 & _).
  set (w1 := snd (autoHigh_probe fDelayPtr w0)) in *.
  assert (I1 : _hardwareMode (this w1) <> 255) by (rewrite M1; discriminate).
  exists (fst (autoHigh_probe fDelayPtr w0)).
  destruct (autoHigh_adjust_effect fDelayPtr (fst (autoHigh_probe fDelayPtr w0)) w1 I1)
    as (M2 & R2 & W2 & _).
  assert (W : same_wiring (this w) (this (snd (autoHigh_adjust fDelayPtr
               (fst (autoHigh_probe fDelayPtr w0)) w1))))
    by eauto using same_wiring_trans.
  split; [| split; [exact R2 | exact W]].
  rewrite M2. f_equal.
  destruct W0 as (_ & _ & A0), W1 as (_ & _ & A1). congruence.
Qed.

Lemma readLightLevel_settled (fDelayPtr : DelayFuncPtr) (w : World) :
  settled (this w) -> settled (this (snd (readLightLevel fDelayPtr w))).
Proof.
  intros S. pose proof (settled_uint8 _ S) as U.
  destruct (Z.eq_dec (_hardwareMode (this w)) 255) as [E | I].
  - now rewrite (readLightLevel_this_uninitialized _ _ E).
  - rewrite (readLightLevel_initialized _ _ I).
    destruct (readLightLevel_final_effect (snd (readLightLevel_prepare fDelayPtr w)))
      as (M2 & R2 & W2 & _).
    apply (settled_same_fields _ _ M2 R2 W2).
    destruct (Z.eq_dec (_virtualMode (this w)) RESOLUTION_AUTO_HIGH) as [V | V].
    + destruct (readLightLevel_prepare_auto fDelayPtr w I U V) as (level & M1 & R1 & W1).
      right; right. destruct W1 as (_ & V1 & A1). split; [congruence |].
      rewrite M1, R1, A1. apply adjusted_setting.
    + rewrite (readLightLevel_prepare_fixed _ _ V).
      destruct (readLightLevel_wake_effect w U) as (M0 & R0 & W0 & _).
      exact (settled_same_fields _ _ M0 R0 W0 S).
Qed.

Lemma isPresent_settled (w : World) :
  settled (this w) -> settled (this (snd (isPresent w))).
Proof.
  intros S. pose proof (settled_uint8 _ S) as U. rewrite isPresent_phases.
  destruct (negb _); [exact S |].
  set (w1 := address_checked w).
  rewrite bind_run, isInitialized_spec. cbn [fst snd].
  change (this w1) with (this w).
  destruct (_hardwareMode (this w) =? 255) eqn:E; cbn [negb].
  - rewrite !bind_run.
    set (w2 := snd (set_hardwareMode 255 _)).
    assert (U2 : _hardwareMode (this w2) = 255) by reflexivity.
    rewrite (readLightLevel_this_uninitialized _ _ U2). cbn [ret fst snd].
    left. exact U2.
  - rewrite !bind_run. cbn [ret snd].
    apply readLightLevel_settled.
    destruct (powerOn_effect w1) as (M & R & W & _).
    change (this w1) with (this w) in M, R, W. rewrite (u8_small _ U) in M.
    exact (settled_same_fields _ _ M R W S).
Qed.

Lemma perform_all_settled (ops : list Operation) (w : World) :
  settled (this w) -> settled (this (perform_all ops w)).
Proof.
  revert w. induction ops as [| op ops IH]; intros w S; cbn [perform_all fold_left].
  - exact S.
  - apply IH. destruct op; cbn [perform].
    + apply begin_settled.
    + now apply isPresent_settled.
    + now apply readLightLevel_settled.
    + now rewrite powerDown_this.
Qed.

(** X11. From a freshly constructed object, after every sequence of
    [begin], [isPresent], [readLightLevel] and [powerDown], an initialized
    object in a fixed virtual mode has the hardware mode the table of
    [begin] gives for its virtual mode and flag, and its register at 69; in
    the auto-high mode register and hardware mode form one of five pairs:
    69 with the low-resolution probe mode, 254 or 69 with a 0.5 lx mode, 69
    or 32 with a 1 lx mode, the one-time modes when auto power down is set
    and the continuous ones otherwise. *)
Theorem register_and_mode_settled (address : Z) (uninit : AS_BH1750) (b : Arduino)
    (ops : list Operation) :
  let h := this (perform_all ops (mkWorld (new_AS_BH1750 address uninit) b)) in
  _hardwareMode h <> 255 ->
  (_virtualMode h <> RESOLUTION_AUTO_HIGH ->
   _hardwareMode h = begin_hardwareMode (_virtualMode h) (_autoPowerDown h) /\
   _MTreg h = 69) /\
  (_virtualMode h = RESOLUTION_AUTO_HIGH ->
   auto_high_setting (_autoPowerDown h) (_MTreg h) (_hardwareMode h)).
Proof.
  cbv zeta. intros I.
  destruct (perform_all_settled ops (mkWorld (new_AS_BH1750 address uninit) b))
    as [E | [(V & M & R) | (V & S)]].
  - left. reflexivity.
  - contradiction.
  - split; [intros _; now split | intros V'; contradiction].
  - split; [intros V'; contradiction | intros _; exact S].
Qed.

Lemma register_and_mode_settled_witness :
  let h := this (perform_all
                   [call_begin RESOLUTION_AUTO_HIGH true; call_readLightLevel delay;
                    call_powerDown; call_isPresent]
                   (mkWorld (new_AS_BH1750 BH1750_DEFAULT_I2CADDR blank) quiet_board)) in
  _hardwareMode h <> 255 /\
  auto_high_setting (_autoPowerDown h) (_MTreg h) (_hardwareMode h).
Proof.
  cbv zeta.
  set (ops := [call_begin RESOLUTION_AUTO_HIGH true; call_readLightLevel delay;
               call_powerDown; call_isPresent]).
  assert (I : _hardwareMode (this (perform_all ops
                (mkWorld (new_AS_BH1750 BH1750_DEFAULT_I2CADDR blank) quiet_board))) <> 255)
    by (vm_compute; discriminate).
  destruct (register_and_mode_settled BH1750_DEFAULT_I2CADDR blank quiet_board ops I)
    as (_ & S).
  split; [exact I | apply S; vm_compute; reflexivity].
Defined.

Lemma begin_hardwareMode_mode_2 (mode : sensors_resolution_t) (apd : bool) :
  begin_hardwareMode mode apd <> 255 ->
  let hm := begin_hardwareMode mode apd in
  (hm =? BH1750_CONTINUOUS_HIGH_RES_MODE_2) || (hm =? BH1750_ONE_TIME_HIGH_RES_MODE_2)
  = (mode =? RESOLUTION_HIGH).
Proof.
  cbv zeta. unfold begin_hardwareMode. intros N.
  destruct (mode =? RESOLUTION_LOW) eqn:E1.
  { apply Z.eqb_eq in E1. subst mode. destruct apd; reflexivity. }
  destruct (mode =? RESOLUTION_NORMAL) eqn:E2.
  { apply Z.eqb_eq in E2. subst mode. destruct apd; reflexivity. }
  destruct (mode =? RESOLUTION_HIGH) eqn:E3.
  { destruct apd; reflexivity. }
  destruct (mode =? RESOLUTION_AUTO_HIGH) eqn:E4; [reflexivity | contradiction].
Qed.

(** X12. End to end, in a fixed virtual mode: on an initialized object
    reached from a fresh one by any sequence of operations, a final raw
    read of [raw] counts, other than 65535, makes [readLightLevel] return
    [raw / 1.2] in the low and normal modes and [raw / 1.2 / 2] in the high
    mode, whatever was measured or failed before. *)
Theorem fixed_mode_reading (address : Z) (uninit : AS_BH1750) (b : Arduino)
    (ops : list Operation) (fDelayPtr : DelayFuncPtr) :
  let w := perform_all ops (mkWorld (new_AS_BH1750 address uninit) b) in
  let raw := fst (readRawLevel (snd (readLightLevel_prepare fDelayPtr w))) in
  fst (isInitialized w) = true ->
  _virtualMode (this w) <> RESOLUTION_AUTO_HIGH ->
  raw <> 65535 ->
  fst (readLightLevel fDelayPtr w) =
  if _virtualMode (this w) =? RESOLUTION_HIGH
  then (inject_Z raw / (12 # 10) / 2)%Q
  else (inject_Z raw / (12 # 10))%Q.
Proof.
  cbv zeta. set (w := perform_all ops _). intros I V N.
  apply isInitialized_true in I.
  pose proof (perform_all_settled ops (mkWorld (new_AS_BH1750 address uninit) b)
                ltac:(left; reflexivity)) as S.
  fold w in S. pose proof (settled_uint8 _ S) as U.
  destruct S as [E | [(_ & M & R) | (V' & _)]]; [contradiction | | contradiction].
  rewrite (readLightLevel_initialized _ _ I).
  rewrite (readLightLevel_prepare_fixed _ _ V) in *.
  destruct (readLightLevel_wake_effect w U) as (M0 & R0 & (_ & V0 & A0) & _).
  set (w1 := snd (readLightLevel_wake w)) in *.
  rewrite readLightLevel_final_spec. cbv zeta.
  apply Z.eqb_neq in N. rewrite N.
  destruct (readRawLevel_effect w1) as (M2 & R2 & _ & _ & _).
  pose proof (readRawLevel_range w1) as B.
  rewrite convertRawValue_spec. cbn [fst]. cbv zeta.
  rewrite M2, R2, M0, R0, R, M, (u16_small _ B).
  rewrite begin_hardwareMode_mode_2 by (rewrite <- M; exact I).
  change (negb (BH1750_MTREG_DEFAULT =? BH1750_MTREG_DEFAULT)) with false. cbv iota.
  reflexivity.
Qed.

Lemma fixed_mode_reading_witness :
  let ops := [call_begin RESOLUTION_AUTO_HIGH true; call_readLightLevel delay;
              call_begin RESOLUTION_HIGH false] in
  let b := scripted_board (repeat 0 17 ++ [120]) 0 in
  let w := perform_all ops (mkWorld (new_AS_BH1750 BH1750_DEFAULT_I2CADDR blank) b) in
  fst (isInitialized w) = true /\
  fst (readRawLevel (snd (readLightLevel_prepare delay w))) = 120 /\
  fst (readLightLevel delay w) = (inject_Z 120 / (12 # 10) / 2)%Q.
Proof.
  cbv zeta.
  set (ops := [call_begin RESOLUTION_AUTO_HIGH true; call_readLightLevel delay;
               call_begin RESOLUTION_HIGH false]).
  set (b := scripted_board (repeat 0 17 ++ [120]) 0).
  pose proof (fixed_mode_reading BH1750_DEFAULT_I2CADDR blank b ops delay) as H.
  cbv zeta in H.
  set (w := perform_all ops (mkWorld (new_AS_BH1750 BH1750_DEFAULT_I2CADDR blank) b)) in *.
  assert (I : fst (isInitialized w) = true) by (vm_compute; reflexivity).
  assert (R : fst (readRawLevel (snd (readLightLevel_prepare delay w))) = 120)
    by (vm_compute; reflexivity).
  assert (V : _virtualMode (this w) = RESOLUTION_HIGH) by (vm_compute; reflexivity).
  rewrite R, V in H.
  split; [exact I | split; [exact R |]].
  apply H; [exact I | discriminate | discriminate].
Defined.

(** ** The protocol on the bus *)

Ltac protocol :=
  repeat match goal with
         | |- Forall _ (_ ++ _) => apply Forall_app; split
         | |- Forall _ (_ :: _) => apply Forall_cons
         | |- Forall _ [] => apply Forall_nil
         | |- driver_call _ (write_call _) => idtac
         | |- driver_call _ _ => cbn [driver_call]
         | |- True => exact I
         | |- _ /\ _ => split
         end;
  try assumption; try reflexivity.

Lemma polite_delay (a : Z) : polite a delay.
Proof.
  intros ms b F. unfold delay, record. cbn [trace].
  protocol.
Qed.

Lemma on_protocol_write8 (a d : Z) (w : World) :
  driver_call a (write_call (u8 d)) ->
  on_protocol a w -> on_protocol a (snd (write8 d w)).
Proof.
  intros D [A F]. rewrite write8_spec. cbv zeta. split; cbn [snd this board trace].
  - exact A.
  - protocol.
Qed.

Lemma on_protocol_defineMTReg (a val : Z) (w : World) :
  val = 32 \/ val = BH1750_MTREG_DEFAULT \/ val = BH1750_MTREG_MAX ->
  on_protocol a w -> on_protocol a (snd (defineMTReg val w)).
Proof.
  intros V [A F].
  destruct (Z.eq_dec (clamped val) (_MTreg (this w))) as [E | N].
  - rewrite (defineMTReg_same _ _ E). now split.
  - rewrite (defineMTReg_changed _ _ N). cbv zeta. split; cbn [snd this board trace].
    + exact A.
    + assert (D : driver_call a
                    (write_call (u8 (Z.lor (u8 (Z.shiftr (clamped val) 5)) 0x40)))).
      { destruct V as [-> | [-> | ->]]; cbn; tauto. }
      protocol.
Qed.

Lemma on_protocol_call (a : Z) (fDelayPtr : DelayFuncPtr) (ms : Z) (w : World) :
  polite a fDelayPtr ->
  on_protocol a w -> on_protocol a (snd (call fDelayPtr ms w)).
Proof. intros Pf [A F]. split; [exact A | apply Pf, F]. Qed.

Lemma on_protocol_selectResolutionMode (a mode : Z) (fDelayPtr : DelayFuncPtr)
    (w : World) :
  polite a fDelayPtr ->
  on_protocol a w -> on_protocol a (snd (selectResolutionMode mode fDelayPtr w)).
Proof.
  intros Pf [A F].
  destruct (Z.eq_dec (_hardwareMode (this w)) 255) as [E | I].
  - rewrite (selectResolutionMode_refused _ _ _ E). now split.
  - destruct (is_measurement_mode (u8 mode)) eqn:V.
    + pose proof (selectResolutionMode_valid_run (u8 mode) fDelayPtr w I V) as R.
      cbv zeta in R.
      assert (E : selectResolutionMode (u8 mode) fDelayPtr w =
                  selectResolutionMode mode fDelayPtr w).
      { unfold selectResolutionMode. now rewrite u8_idem. }
      rewrite <- E, R. cbn [snd]. split; [exact A |]. cbn [board].
      assert (S : Forall (driver_call a)
                    (trace (board w) ++
                     [beginTransmission_call (_address (this w)); write_call (u8 mode);
                      endTransmission_call (u8 (next_answer (board w)))])).
      { assert (D : driver_call a (write_call (u8 mode))) by (cbn; tauto).
        protocol. }
      destruct (_ =? 0); [apply Pf |]; exact S.
    + rewrite (selectResolutionMode_invalid _ _ _ I V). now split.
Qed.

Lemma on_protocol_readRawLevel (a : Z) (w : World) :
  on_protocol a w -> on_protocol a (snd (readRawLevel w)).
Proof.
  intros [A F]. rewrite readRawLevel_spec. cbv zeta.
  assert (S : Forall (driver_call a)
                (trace (board w) ++
                 [beginTransmission_call (_address (this w));
                  requestFrom_call (_address (this w)) 2;
                  read_call (answers (board w) (asked (board w)));
                  read_call (answers (board w) (S (asked (board w))));
                  endTransmission_call (u8 (answers (board w) (S (S (asked (board w))))))])).
  { protocol. }
  destruct (_ =? 0); split; cbn [snd this board trace measured _address]; assumption.
Qed.

Lemma on_protocol_powerOn (a : Z) (w : World) :
  on_protocol a w -> on_protocol a (snd (powerOn w)).
Proof.
  intros H. unfold powerOn. rewrite bind_run, isInitialized_spec. cbn [fst snd].
  destruct (negb _); [exact H |].
  unfold set_valueReaded. rewrite !bind_run. cbn [ret snd].
  apply on_protocol_selectResolutionMode; [apply polite_delay |].
  destruct H as [A F]. now split.
Qed.

Lemma on_protocol_powerDown (a : Z) (w : World) :
  on_protocol a w -> on_protocol a (snd (powerDown w)).
Proof.
  intros H. unfold powerDown. rewrite bind_run, isInitialized_spec. cbn [fst snd].
  destruct (negb _); [exact H |].
  rewrite bind_run. cbn [ret snd].
  apply on_protocol_write8; [cbn; tauto | exact H].
Qed.

Lemma on_protocol_prepare (a : Z) (fDelayPtr : DelayFuncPtr) (w : World) :
  polite a fDelayPtr ->
  on_protocol a w -> on_protocol a (snd (readLightLevel_prepare fDelayPtr w)).
Proof.
  intros Pf H. rewrite readLightLevel_prepare_run. cbv zeta.
  assert (H0 : on_protocol a (snd (readLightLevel_wake w))).
  { unfold readLightLevel_wake. rewrite !bind_run. cbn [get fst snd].
    destruct (_ && _); [now apply on_protocol_powerOn | exact H]. }
  set (w0 := snd (readLightLevel_wake w)) in *.
  destruct (_ =? RESOLUTION_AUTO_HIGH); [| exact H0].
  assert (H1 : on_protocol a (snd (autoHigh_probe fDelayPtr w0))).
  { unfold autoHigh_probe. rewrite !bind_run.
    apply on_protocol_readRawLevel, on_protocol_call; [exact Pf |].
    apply on_protocol_selectResolutionMode; [exact Pf |].
    apply on_protocol_defineMTReg; [tauto | exact H0]. }
  set (w1 := snd (autoHigh_probe fDelayPtr w0)) in *.
  unfold autoHigh_adjust.
  destruct (_ <? 10); [| destruct (_ <? 32767); [| destruct (_ <? 60000)]];
    rewrite !bind_run; cbn [get fst snd];
    (apply on_protocol_call; [exact Pf |]);
    (apply on_protocol_selectResolutionMode; [exact Pf |]);
    (apply on_protocol_defineMTReg; [tauto | exact H1]).
Qed.

Lemma on_protocol_final (a : Z) (w : World) :
  on_protocol a w -> on_protocol a (snd (readLightLevel_final w)).
Proof.
  intros H. rewrite readLightLevel_final_spec. cbv zeta.
  destruct (on_protocol_readRawLevel a w H) as [A F].
  set (w2 := snd (readRawLevel w)) in *.
  destruct (_ =? 65535); [| now split].
  assert (S : on_protocol a
                (mkWorld (this w2)
                   (mkArduino (answers (board w2)) (S (asked (board w2)))
                      (trace (board w2) ++
                       [beginTransmission_call (_address (this w2));
                        endTransmission_call (u8 (next_answer (board w2)))])))).
  { split; [exact A |]. cbn [board trace]. protocol. }
  destruct (negb _); exact S.
Qed.

Lemma on_protocol_readLightLevel (a : Z) (fDelayPtr : DelayFuncPtr) (w : World) :
  polite a fDelayPtr ->
  on_protocol a w -> on_protocol a (snd (readLightLevel fDelayPtr w)).
Proof.
  intros Pf H. destruct (Z.eq_dec (_hardwareMode (this w)) 255) as [E | I].
  - now rewrite (readLightLevel_this_uninitialized _ _ E).
  - rewrite (readLightLevel_initialized _ _ I).
    now apply on_protocol_final, on_protocol_prepare.
Qed.

Lemma on_protocol_begin (a : Z) (mode : sensors_resolution_t) (autoPowerDown : bool)
    (w : World) :
  on_protocol a w -> on_protocol a (snd (begin mode autoPowerDown w)).
Proof.
  intros [A F]. rewrite begin_phases. cbv zeta.
  assert (H1 : on_protocol a (snd (begin_setup mode autoPowerDown w))).
  { unfold begin_setup. rewrite !bind_run.
    apply on_protocol_defineMTReg; [tauto |]. split; [exact A |].
    cbn [snd set_virtualMode set_autoPowerDown modify Wire_begin on_board record board
         this trace].
    protocol. }
  set (w1 := snd (begin_setup mode autoPowerDown w)) in *.
  set (hm := begin_hardwareMode mode autoPowerDown).
  assert (H2 : on_protocol a (snd (set_hardwareMode hm w1))) by exact H1.
  destruct (_ =? 255); [exact H2 |].
  pose proof (on_protocol_selectResolutionMode a (u8 hm) delay _ (polite_delay a) H2) as H3.
  destruct (fst _); [exact H3 | exact H3].
Qed.

Lemma on_protocol_isPresent (a : Z) (w : World) :
  on_protocol a w -> on_protocol a (snd (isPresent w)).
Proof.
  intros [A F]. rewrite isPresent_phases.
  assert (H1 : on_protocol a (address_checked w)).
  { split; [exact A |]. cbn [address_checked board trace]. protocol. }
  destruct (negb _); [exact H1 |].
  rewrite bind_run, isInitialized_spec. cbn [fst snd].
  rewrite !bind_run. cbn [ret snd].
  apply on_protocol_readLightLevel; [apply polite_delay |].
  destruct (negb _).
  - rewrite bind_run.
    pose proof (on_protocol_selectResolutionMode a BH1750_ONE_TIME_LOW_RES_MODE delay _
                  (polite_delay a) H1) as H2.
    exact H2.
  - now apply on_protocol_powerOn.
Qed.

Lemma perform_all_on_protocol (a : Z) (ops : list Operation) (w : World) :
  Forall (polite_operation a) ops ->
  on_protocol a w -> on_protocol a (perform_all ops w).
Proof.
  revert w. induction ops as [| op ops IH]; intros w Pf H; cbn [perform_all fold_left].
  - exact H.
  - inversion Pf as [| ? ? Pop Pops]; subst.
    apply IH; [exact Pops |]. destruct op; cbn [perform].
    + now apply on_protocol_begin.
    + now apply on_protocol_isPresent.
    + now apply on_protocol_readLightLevel.
    + now apply on_protocol_powerDown.
Qed.

(** X13. From a fresh object on a board whose trace is empty, through every
    sequence of operations whose delay routines are polite, the address
    never changes, every transmission the driver opens and every request it
    makes goes to that address, and every request asks for 2 bytes. *)
Theorem driver_talks_to_its_address (address : Z) (uninit : AS_BH1750) (b : Arduino)
    (ops : list Operation) :
  trace b = [] ->
  Forall (polite_operation (u8 address)) ops ->
  let w := perform_all ops (mkWorld (new_AS_BH1750 address uninit) b) in
  _address (this w) = u8 address /\
  (forall x, In (beginTransmission_call x) (trace (board w)) -> x = u8 address) /\
  (forall x q, In (requestFrom_call x q) (trace (board w)) -> x = u8 address /\ q = 2).
Proof.
  intros T Pf. cbv zeta.
  destruct (perform_all_on_protocol (u8 address) ops
              (mkWorld (new_AS_BH1750 address uninit) b) Pf) as [A F].
  { split; [reflexivity |]. cbn [board]. rewrite T. constructor. }
  rewrite Forall_forall in F.
  split; [exact A | split].
  - intros x H. exact (F _ H).
  - intros x q H. exact (F _ H).
Qed.

Lemma driver_talks_to_its_address_witness :
  let ops := [call_isPresent; call_begin RESOLUTION_AUTO_HIGH true;
              call_readLightLevel delay; call_powerDown; call_isPresent] in
  let w := perform_all ops (mkWorld (new_AS_BH1750 BH1750_SECOND_I2CADDR blank) quiet_board) in
  In (requestFrom_call 0x5C 2) (trace (board w)) /\
  (forall x q, In (requestFrom_call x q) (trace (board w)) -> x = 0x5C /\ q = 2).
Proof.
  cbv zeta.
  set (ops := [call_isPresent; call_begin RESOLUTION_AUTO_HIGH true;
               call_readLightLevel delay; call_powerDown; call_isPresent]).
  destruct (driver_talks_to_its_address BH1750_SECOND_I2CADDR blank quiet_board ops
              eq_refl) as (_ & _ & H).
  { repeat constructor; apply polite_delay. }
  split; [| exact H].
  vm_compute. tauto.
Defined.

(** X14. Under the same conditions every byte the driver writes is the
    power-down command 0x00, one of the six measurement commands, or one of
    0x41, 0x42 and 0x47, the high bytes of the registers 32, 69 and 254. It
    never writes the power-on command 0x01 or the reset command 0x07, and
    never a low byte of the register, 0x60 to 0x7F. *)
Theorem driver_writes_only_known_commands (address : Z) (uninit : AS_BH1750)
    (b : Arduino) (ops : list Operation) (d : Z) :
  trace b = [] ->
  Forall (polite_operation (u8 address)) ops ->
  let w := perform_all ops (mkWorld (new_AS_BH1750 address uninit) b) in
  In (write_call d) (trace (board w)) ->
  In d [0x00; 0x10; 0x11; 0x13; 0x20; 0x21; 0x23; 0x41; 0x42; 0x47] /\
  d <> BH1750_POWER_ON /\ d <> BH1750_RESET /\ ~ (0x60 <= d <= 0x7F).
Proof.
  intros T Pf. cbv zeta. intros H.
  destruct (perform_all_on_protocol (u8 address) ops
              (mkWorld (new_AS_BH1750 address uninit) b) Pf) as [_ F].
  { split; [reflexivity |]. cbn [board]. rewrite T. constructor. }
  rewrite Forall_forall in F. specialize (F _ H). cbn [driver_call] in F.
  assert (L : In d [0x00; 0x10; 0x11; 0x13; 0x20; 0x21; 0x23; 0x41; 0x42; 0x47]).
  { cbn [In]. destruct F as [-> | [M | [-> | [-> | ->]]]]; try tauto.
    unfold is_measurement_mode in M. rewrite !orb_true_iff, !Z.eqb_eq in M.
    unfold BH1750_CONTINUOUS_HIGH_RES_MODE, BH1750_CONTINUOUS_HIGH_RES_MODE_2,
      BH1750_CONTINUOUS_LOW_RES_MODE, BH1750_ONE_TIME_HIGH_RES_MODE,
      BH1750_ONE_TIME_HIGH_RES_MODE_2, BH1750_ONE_TIME_LOW_RES_MODE in M.
    intuition auto. }
  split; [exact L |].
  cbn [In] in L. unfold BH1750_POWER_ON, BH1750_RESET. lia.
Qed.

Lemma driver_writes_only_known_commands_witness :
  let ops := [call_begin RESOLUTION_AUTO_HIGH true; call_readLightLevel delay] in
  let w := perform_all ops (mkWorld (new_AS_BH1750 BH1750_DEFAULT_I2CADDR blank) quiet_board) in
  In (write_call 0x47) (trace (board w)) /\
  In 0x47 [0x00; 0x10; 0x11; 0x13; 0x20; 0x21; 0x23; 0x41; 0x42; 0x47].
Proof.
  cbv zeta.
  set (ops := [call_begin RESOLUTION_AUTO_HIGH true; call_readLightLevel delay]).
  assert (H : In (write_call 0x47)
                (trace (board (perform_all ops
                   (mkWorld (new_AS_BH1750 BH1750_DEFAULT_I2CADDR blank) quiet_board)))))
    by (vm_compute; tauto).
  split; [exact H |].
  apply (driver_writes_only_known_commands BH1750_DEFAULT_I2CADDR blank quiet_board ops
           0x47 eq_refl); [| exact H].
  repeat constructor; apply polite_delay.
Defined.

(** ** [isPresent] on an initialized object *)

(** X15. When the address check fails [isPresent] returns false at once,
    initialized or not, and the object is untouched. On an initialized,
    calibrated object whose address check succeeds it wakes the sensor with
    [powerOn] in every mode, takes a full reading with the platform's
    [delay], and returns true exactly when that reading is not -1. *)
Theorem isPresent_initialized (w : World) :
  let st := u8 (next_answer (board w)) in
  let lux := fst (readLightLevel delay (snd (powerOn (address_checked w)))) in
  (st <> 0 -> isPresent w = (false, address_checked w)) /\
  (st = 0 ->
   fst (isInitialized w) = true ->
   0 <= _hardwareMode (this w) <= 255 ->
   calibrated (this w) ->
   snd (isPresent w) = snd (readLightLevel delay (snd (powerOn (address_checked w)))) /\
   (fst (isPresent w) = true <-> ~ (lux == -1)%Q)).
Proof.
  cbv zeta. rewrite isPresent_phases. split.
  - intros N. apply Z.eqb_neq in N. now rewrite N.
  - intros S I U C. apply isInitialized_true in I. rewrite S.
    change (negb (0 =? 0)) with false. cbv iota.
    set (w1 := address_checked w).
    rewrite bind_run, isInitialized_spec. cbn [fst snd].
    change (this w1) with (this w). apply Z.eqb_neq in I. rewrite I. cbn [negb].
    rewrite !bind_run. cbn [ret fst snd]. split; [reflexivity |].
    destruct (powerOn_effect w1) as (M & _ & _ & C1).
    change (this w1) with (this w) in M, C1. rewrite (u8_small _ U) in M.
    apply Z.eqb_neq in I.
    assert (I1 : _hardwareMode (this (snd (powerOn w1))) <> 255) by now rewrite M.
    assert (U1 : 0 <= _hardwareMode (this (snd (powerOn w1))) <= 255) by now rewrite M.
    destruct (readLightLevel_range delay (snd (powerOn w1)) I1 U1 (C1 C)) as [E | [L _]].
    + rewrite E. split; [discriminate | intros N; exfalso; apply N; reflexivity].
    + pose proof L as L'. apply Qle_bool_iff in L'. rewrite L'.
      split; [intros _ E | reflexivity].
      rewrite E in L. unfold Qle in L. cbn in L. lia.
Qed.

Lemma isPresent_initialized_witness :
  let w := started RESOLUTION_NORMAL false quiet_board in
  u8 (next_answer (board w)) = 0 /\
  fst (isPresent w) = true.
Proof.
  cbv zeta.
  set (w := started RESOLUTION_NORMAL false quiet_board).
  assert (S : u8 (next_answer (board w)) = 0) by (vm_compute; reflexivity).
  destruct (isPresent_initialized w) as (_ & H).
  destruct (H S) as (_ & P).
  - vm_compute; reflexivity.
  - vm_compute; split; discriminate.
  - left; vm_compute; reflexivity.
  - split; [exact S |]. apply P.
    assert (E : fst (readLightLevel delay (snd (powerOn (address_checked w)))) = (0 # 12)%Q)
      by (vm_compute; reflexivity).
    rewrite E. discriminate.
Defined.

Lemma initialized_objects_are_calibrated_witness :
  let h := this (perform_all
                   [call_begin RESOLUTION_AUTO_HIGH true; call_readLightLevel delay]
                   (mkWorld (new_AS_BH1750 BH1750_DEFAULT_I2CADDR blank) quiet_board)) in
  _hardwareMode h <> 255 /\ _MTreg h = 254 /\ calibrated h.
Proof.
  cbv zeta.
  set (ops := [call_begin RESOLUTION_AUTO_HIGH true; call_readLightLevel delay]).
  assert (I : _hardwareMode (this (perform_all ops
                (mkWorld (new_AS_BH1750 BH1750_DEFAULT_I2CADDR blank) quiet_board))) <> 255)
    by (vm_compute; discriminate).
  destruct (initialized_objects_are_calibrated BH1750_DEFAULT_I2CADDR blank quiet_board
              ops I) as (_ & C).
  split; [exact I | split; [vm_compute; reflexivity | exact C]].
Defined.

(** ** The flag of a value having been read *)

Lemma readLightLevel_prepare_lowers_flag (fDelayPtr : DelayFuncPtr) (w : World) :
  _hardwareMode (this w) <> 255 ->
  0 <= _hardwareMode (this w) <= 255 ->
  _autoPowerDown (this w) = true ->
  _valueReaded (this (snd (readLightLevel_prepare fDelayPtr w))) = false.
Proof.
  intros I U A. rewrite readLightLevel_prepare_run. cbv zeta.
  destruct (readLightLevel_wake_effect w U) as (M0 & _ & _ & _).
  assert (F0 : _virtualMode (this (snd (readLightLevel_wake w))) <> RESOLUTION_AUTO_HIGH ->
               _valueReaded (this (snd (readLightLevel_wake w))) = false).
  { intros _. unfold readLightLevel_wake. rewrite !bind_run. cbn [get fst snd].
    rewrite A. cbn [andb].
    destruct (_valueReaded (this w)) eqn:R; [| exact R].
    rewrite powerOn_this. apply Z.eqb_neq in I. rewrite I. reflexivity. }
  set (w0 := snd (readLightLevel_wake w)) in *.
  destruct (_virtualMode (this w0) =? RESOLUTION_AUTO_HIGH) eqn:V.
  - assert (I0 : _hardwareMode (this w0) <> 255) by congruence.
    destruct (autoHigh_probe_effect fDelayPtr w0 I0) as (M1 & _ & _ & _).
    set (w1 := snd (autoHigh_probe fDelayPtr w0)) in *.
    rewrite autoHigh_adjust_run. cbv zeta.
    rewrite selectResolutionMode_this.
    destruct (defineMTReg_effect
                (adjusted_MTreg (fst (autoHigh_probe fDelayPtr w0))) w1)
      as (_ & M2 & _).
    rewrite M2, M1. reflexivity.
  - apply F0. now apply Z.eqb_neq.
Qed.

(** X17. With auto power down set, [readLightLevel] on an initialized
    object leaves the flag of a value having been read raised exactly when
    its final raw read succeeded. So a failed read is not followed by a
    wake-up at the next call, and a successful one is. *)
Theorem valueReaded_tracks_final_read (fDelayPtr : DelayFuncPtr) (w : World) :
  fst (isInitialized w) = true ->
  0 <= _hardwareMode (this w) <= 255 ->
  _autoPowerDown (this w) = true ->
  let w1 := snd (readLightLevel_prepare fDelayPtr w) in
  let st := u8 (answers (board w1) (S (S (asked (board w1))))) in
  trace (board (snd (readRawLevel w1))) =
    trace (board w1) ++
    [beginTransmission_call (_address (this w1)); requestFrom_call (_address (this w1)) 2;
     read_call (answers (board w1) (asked (board w1)));
     read_call (answers (board w1) (S (asked (board w1))));
     endTransmission_call st] /\
  _valueReaded (this (snd (readLightLevel fDelayPtr w))) = (st =? 0).
Proof.
  intros I U A. apply isInitialized_true in I. cbv zeta.
  pose proof (readLightLevel_prepare_lowers_flag fDelayPtr w I U A) as F.
  rewrite (readLightLevel_initialized _ _ I).
  set (w1 := snd (readLightLevel_prepare fDelayPtr w)) in *.
  rewrite readLightLevel_final_spec. cbv zeta.
  rewrite readRawLevel_spec. cbv zeta.
  destruct (u8 (answers (board w1) (S (S (asked (board w1))))) =? 0);
    cbn [fst snd this board trace];
    (split; [reflexivity |]).
  - destruct (_ =? 65535); [destruct (negb _) |]; reflexivity.
  - change (65535 =? 65535) with true. cbv iota.
    destruct (negb _); exact F.
Qed.

Lemma valueReaded_tracks_final_read_witness :
  let w := started RESOLUTION_NORMAL true (scripted_board [0; 120; 2] 0) in
  fst (isInitialized w) = true /\
  _valueReaded (this (snd (readLightLevel delay w))) = false.
Proof.
  cbv zeta.
  set (w := started RESOLUTION_NORMAL true (scripted_board [0; 120; 2] 0)).
  assert (I : fst (isInitialized w) = true) by (vm_compute; reflexivity).
  destruct (valueReaded_tracks_final_read delay w I
              ltac:(vm_compute; split; discriminate) ltac:(vm_compute; reflexivity))
    as (_ & H).
  split; [exact I | rewrite H; vm_compute; reflexivity].
Defined.

(** ** The scale factor *)

(** X18. [defineMTReg] keeps the scale factor in step with the register: a
    call that changes the register stores [69 / register] with it, so the
    object is calibrated afterwards whatever it was before; a call that
    finds the register already at the clamped value leaves a calibrated
    object calibrated. No call touches another field. *)
Theorem defineMTReg_keeps_calibration (val : Z) (w : World) :
  let h := this w in
  let h' := this (snd (defineMTReg val w)) in
  (_MTreg h' <> _MTreg h ->
   _MTregFactor h' = (inject_Z 69 / inject_Z (_MTreg h'))%Q /\ calibrated h') /\
  (calibrated h -> calibrated h') /\
  _hardwareMode h' = _hardwareMode h /\
  _valueReaded h' = _valueReaded h /\
  same_wiring h h'.
Proof.
  cbv zeta.
  destruct (defineMTReg_effect val w) as (R & M & F & W & C). cbv zeta in *.
  split; [| repeat split; try assumption; apply W].
  intros N. rewrite defineMTReg_this in *.
  destruct (clamped val =? _MTreg (this w)) eqn:E; [now contradiction N |].
  split; [reflexivity | apply recalibrated_calibrated, clamped_range].
Qed.
